(** * Online voting system: the store, the voting window and the ballot

    A shallow embedding of [app.py]: the SQLite tables as finite maps and
    lists, the Streamlit session state as a record, the functions of the
    program as functions over them, with the clock passed explicitly
    wherever the program reads it ([get_india_time], [CURRENT_TIMESTAMP]).

    Conventions of the model
    - a [str] is a [string], the text in UTF-8; the text functions
      [strip], [upper] and [title] and the length are those of Python on
      ASCII text (code points below 128, one byte each).  A byte of a
      longer character is kept as it is and is neither white space nor a
      letter, which is what Python does for some characters and not for
      others: a statement that depends on what these functions do to a
      text says [Text.is_ascii] of that text;
    - an instant (an aware [datetime]) is a [Z], a [timedelta] the
      difference of two instants;
    - every [sqlite3] call succeeds unless a constraint of the schema
      rejects the statement: a database file that cannot be opened is not
      modelled. *)

From Stdlib Require Import ZArith NArith Ascii String DecimalString.
From stdpp Require Import base strings list gmap fin_maps.

Local Open Scope string_scope.

(** ** Text *)

Module Text.

Definition code (a : ascii) : N := N_of_ascii a.

(** [str.isspace] on ASCII: TAB, LF, VT, FF, CR, the four separators
    FS, GS, RS, US and the space. *)
Definition isspace (a : ascii) : bool :=
  let n := code a in
  ((9 <=? n) && (n <=? 13) || (28 <=? n) && (n <=? 32))%N.

Definition islower (a : ascii) : bool :=
  let n := code a in ((97 <=? n) && (n <=? 122))%N.

Definition isupper (a : ascii) : bool :=
  let n := code a in ((65 <=? n) && (n <=? 90))%N.

Definition upper_char (a : ascii) : ascii :=
  if islower a then ascii_of_N (code a - 32) else a.

Definition lower_char (a : ascii) : ascii :=
  if isupper a then ascii_of_N (code a + 32) else a.

(** [s.upper()] *)
Fixpoint upper (s : string) : string :=
  match s with
  | EmptyString => EmptyString
  | String a s' => String (upper_char a) (upper s')
  end.

Fixpoint lstrip (s : string) : string :=
  match s with
  | EmptyString => EmptyString
  | String a s' => if isspace a then lstrip s' else s
  end.

Fixpoint rstrip (s : string) : string :=
  match s with
  | EmptyString => EmptyString
  | String a s' =>
      match rstrip s' with
      | EmptyString => if isspace a then EmptyString else String a EmptyString
      | r => String a r
      end
  end.

(** [s.strip()] *)
Definition strip (s : string) : string := rstrip (lstrip s).

(** [s.title()]: a letter that follows a letter is lowered, a letter that
    starts a run of letters is raised; [cased] tells whether the previous
    character was a letter. *)
Fixpoint title_from (cased : bool) (s : string) : string :=
  match s with
  | EmptyString => EmptyString
  | String a s' =>
      if islower a then
        String (if cased then a else upper_char a) (title_from true s')
      else if isupper a then
        String (if cased then lower_char a else a) (title_from true s')
      else String a (title_from false s')
  end.

Definition title (s : string) : string := title_from false s.

(** a string made of white space only *)
Fixpoint blank (s : string) : bool :=
  match s with
  | EmptyString => true
  | String a s' => isspace a && blank s'
  end.

(** What [title_from] does to one character, and the flag it passes on. *)
Definition title_char (cased : bool) (a : ascii) : ascii :=
  if islower a then (if cased then a else upper_char a)
  else if isupper a then (if cased then lower_char a else a)
  else a.

Definition is_cased (a : ascii) : bool := islower a || isupper a.

(** Text made of ASCII characters only, the text on which this module is
    Python's. *)
Definition is_ascii_char (a : ascii) : bool := (code a <? 128)%N.

Fixpoint is_ascii (s : string) : bool :=
  match s with
  | EmptyString => true
  | String a s' => is_ascii_char a && is_ascii s'
  end.

(** The same character, or the same ASCII letter in its two cases: the
    letters A to Z are 65 to 90 and a to z are 97 to 122, so that the two
    cases of a letter agree modulo 32. *)
Definition same_letter (a b : ascii) : bool :=
  bool_decide (a = b)
  || (is_cased a && is_cased b && (code a mod 32 =? code b mod 32)%N).

Fixpoint same_text (s t : string) : bool :=
  match s, t with
  | EmptyString, EmptyString => true
  | String a s', String b t' => same_letter a b && same_text s' t'
  | _, _ => false
  end.

End Text.

(** ** The store: the three tables of [init_database] *)

(** A row of [students], keyed by [register_number] (the primary key). *)
Record student := Student {
  name : string;
  registration_time : Z
}.

(** A row of [votes]. *)
Record vote := Vote {
  id : nat;
  register_number : string;
  candidate : string;
  vote_time : Z
}.

(** The row of [voting_settings]; [start_time] and [end_time] are [None]
    for SQL [NULL]. *)
Record settings := Settings {
  settings_id : nat;
  start_time : option Z;
  end_time : option Z;
  voting_enabled : bool;
  auto_declare_winner : bool;
  created_at : Z;
  updated_at : Z
}.

(** [voting_settings] holds at most one row: [set_voting_time] deletes every
    row before it inserts one, and nothing else inserts.  [votes_seq] is the
    counter behind [AUTOINCREMENT].  [foreign_keys] is the pragma of the
    connections [sqlite3.connect] opens: the program never sets it, so it is
    whatever the SQLite build defaults to, and it decides whether the
    [FOREIGN KEY] clause of [votes] is enforced. *)
Record database := Database {
  students : gmap string student;
  votes : list vote;
  votes_seq : nat;
  voting_settings : option settings;
  foreign_keys : bool
}.

Definition with_students (m : gmap string student) (db : database) : database :=
  Database m (votes db) (votes_seq db) (voting_settings db) (foreign_keys db).

Definition with_votes (vs : list vote) (seq : nat) (db : database) : database :=
  Database (students db) vs seq (voting_settings db) (foreign_keys db).

Definition with_voting_settings (s : option settings) (db : database) : database :=
  Database (students db) (votes db) (votes_seq db) s (foreign_keys db).

Definition empty_database (fk : bool) : database := Database ∅ [] 0 None fk.

(** ** Registration and ballot *)

Definition normalize (register_number : string) : string :=
  Text.upper (Text.strip register_number).

Definition register_student (register_number name : string) (db : database) (now : Z)
  : bool * string * database :=
  let register_number := Text.upper (Text.strip register_number) in
  let name := Text.title (Text.strip name) in
  match students db !! register_number with
  | None =>
      (true, "Registration successful!",
       with_students (<[register_number := Student name now]> (students db)) db)
  | Some _ => (false, "This register number is already registered!", db)
  end.

Definition is_student_registered (register_number : string) (db : database) : bool :=
  bool_decide (is_Some (students db !! Text.upper (Text.strip register_number))).

Definition voted_by (rn : string) (v : vote) : bool :=
  bool_decide (register_number v = rn).

Definition has_student_voted (register_number : string) (db : database) : bool :=
  existsb (voted_by (Text.upper (Text.strip register_number))) (votes db).

(** The [INSERT] has nothing to violate but the foreign key, and only on a
    connection that enforces it; the bare [except] turns that into [False]. *)
Definition cast_vote (register_number candidate : string) (db : database) (now : Z)
  : bool * database :=
  let register_number := Text.upper (Text.strip register_number) in
  if foreign_keys db && negb (bool_decide (is_Some (students db !! register_number)))
  then (false, db)
  else (true,
        with_votes (votes db ++ [Vote (S (votes_seq db)) register_number candidate now])
                   (S (votes_seq db)) db).

Definition delete_all_students (db : database) : bool * string * database :=
  (true, "All student records and votes deleted successfully!",
   with_students ∅ (with_votes [] (votes_seq db) db)).

Definition get_student_count (db : database) : nat := size (students db).

Definition reset_election (db : database) : bool * database :=
  (true, with_votes [] (votes_seq db) db).

(** ** The tally *)

Definition count_votes (c : string) (vs : list vote) : nat :=
  length (filter (λ v, candidate v = c) vs).

(** [SELECT candidate, COUNT( * ) FROM votes GROUP BY candidate]: one row per
    candidate that has a vote. *)
Definition votes_by_candidate (vs : list vote) : list (string * nat) :=
  (λ c, (c, count_votes c vs)) <$> remove_dups (candidate <$> vs).

Definition get_vote_results (db : database) : gmap string nat :=
  foldl (λ vote_dict row, <[row.1 := row.2]> vote_dict)
        (<["Messi" := 0]> (<["Ronaldo" := 0]> ∅))
        (votes_by_candidate (votes db)).

(** [sum(results.values())] *)
Definition sum_values (results : gmap string nat) : nat :=
  map_fold (λ _ n acc, n + acc) 0 results.

Definition get_total_votes (db : database) : nat := length (votes db).

(** ** The voting window *)

(** [set_voting_time]: the former row goes, the new one is enabled. *)
Definition set_voting_time (start_time end_time : option Z) (auto_declare : bool)
    (db : database) (now : Z) : bool * database :=
  (true,
   with_voting_settings
     (Some (Settings 1 start_time end_time true auto_declare now now)) db).

Definition get_voting_settings (db : database) : option settings :=
  voting_settings db.

Definition is_voting_active (db : database) (now : Z) : bool :=
  match get_voting_settings db with
  | None => false
  | Some settings =>
      if negb (voting_enabled settings) then false
      else
        let current_time := now in
        match start_time settings, end_time settings with
        | Some start_time, Some end_time =>
            (start_time <=? current_time)%Z && (current_time <=? end_time)%Z
        | _, _ => voting_enabled settings
        end
  end.

Inductive status_name :=
  | no_schedule | disabled | enabled | not_started | ended | active.

#[global] Instance status_name_eq_dec : EqDecision status_name.
Proof. solve_decision. Defined.

(** The text of ['message'], with the instant it prints. *)
Inductive status_message :=
  | No_voting_schedule_set
  | Voting_is_disabled
  | Voting_is_enabled
  | Voting_will_start_at (t : Z)
  | Voting_ended_at (t : Z)
  | Voting_is_active_until (t : Z).

(** The dictionary [get_voting_time_status] returns; the last two fields
    are the keys ['start_time'] and ['end_time'], present in some branches
    only. *)
Record time_status := TimeStatus {
  status : status_name;
  message : status_message;
  can_vote : bool;
  time_remaining : option Z;
  status_start_time : option Z;
  status_end_time : option Z
}.

Definition get_voting_time_status (db : database) (now : Z) : time_status :=
  let current_time := now in
  match get_voting_settings db with
  | None => TimeStatus no_schedule No_voting_schedule_set false None None None
  | Some settings =>
      if negb (voting_enabled settings) then
        TimeStatus disabled Voting_is_disabled false None None None
      else
        match start_time settings, end_time settings with
        | Some start_time, Some end_time =>
            if (current_time <? start_time)%Z then
              TimeStatus not_started (Voting_will_start_at start_time)
                         false None (Some start_time) None
            else if (current_time >? end_time)%Z then
              TimeStatus ended (Voting_ended_at end_time)
                         false None None (Some end_time)
            else
              let time_remaining := (end_time - current_time)%Z in
              TimeStatus active (Voting_is_active_until end_time)
                         true (Some time_remaining) None (Some end_time)
        | _, _ =>
            TimeStatus (if voting_enabled settings then enabled else disabled)
                       (if voting_enabled settings then Voting_is_enabled
                        else Voting_is_disabled)
                       (voting_enabled settings) None None None
        end
  end.

(** ** The session state of one browser session *)

Inductive page_name := home | signup | vote_page | admin_login | admin_panel.

Record session_state := SessionState {
  page : page_name;
  admin_logged_in : bool;
  student_logged_in : bool;
  current_student : option string;
  winner_declared : bool;
  declared_winner : option string;
  registration_success : bool;
  auto_declared : bool;
  auto_declaration_processed : bool
}.

(** The defaults [init_session_state] fills in. *)
Definition initial_session : session_state :=
  SessionState home false false None false None false false false.

Definition set_page (p : page_name) (ss : session_state) : session_state :=
  SessionState p (admin_logged_in ss) (student_logged_in ss) (current_student ss)
    (winner_declared ss) (declared_winner ss) (registration_success ss)
    (auto_declared ss) (auto_declaration_processed ss).

Definition set_student (logged_in : bool) (who : option string) (ss : session_state)
  : session_state :=
  SessionState (page ss) (admin_logged_in ss) logged_in who
    (winner_declared ss) (declared_winner ss) (registration_success ss)
    (auto_declared ss) (auto_declaration_processed ss).

Definition set_registration_success (b : bool) (ss : session_state) : session_state :=
  SessionState (page ss) (admin_logged_in ss) (student_logged_in ss) (current_student ss)
    (winner_declared ss) (declared_winner ss) b
    (auto_declared ss) (auto_declaration_processed ss).

Definition set_declaration (declared : bool) (winner : option string) (auto : bool)
    (ss : session_state) : session_state :=
  SessionState (page ss) (admin_logged_in ss) (student_logged_in ss) (current_student ss)
    declared winner (registration_success ss) auto (auto_declaration_processed ss).

Definition set_auto_declaration_processed (b : bool) (ss : session_state)
  : session_state :=
  SessionState (page ss) (admin_logged_in ss) (student_logged_in ss) (current_student ss)
    (winner_declared ss) (declared_winner ss) (registration_success ss)
    (auto_declared ss) b.

(** ** Winner resolution *)

(** [results['Messi']]: both keys are always there, see
    [get_vote_results_both]. *)
Definition votes_for (c : string) (results : gmap string nat) : nat :=
  default 0 (results !! c).

(** The comparison shared by the automatic declaration and by the
    "Declare Winner" tab. *)
Definition leading (results : gmap string nat) : string :=
  if (votes_for "Ronaldo" results <? votes_for "Messi" results)%nat then "Messi"
  else if (votes_for "Messi" results <? votes_for "Ronaldo" results)%nat then "Ronaldo"
  else "Tie".

(** What the "Declare Winner" tab shows: the current leader, or nothing
    but "No votes cast yet. Cannot declare winner." *)
Definition current_leader (db : database) : option string :=
  let results := get_vote_results db in
  let total_votes := sum_values results in
  if (0 <? total_votes)%nat then Some (leading results) else None.

Definition auto_declare_winner_if_time_ended (db : database) (ss : session_state)
    (now : Z) : bool * session_state :=
  match get_voting_settings db with
  | None => (false, ss)
  | Some settings =>
      if negb (auto_declare_winner settings) then (false, ss)
      else
        let time_status := get_voting_time_status db now in
        if bool_decide (status time_status = ended)
           && negb (winner_declared ss)
           && negb (auto_declaration_processed ss)
        then
          let results := get_vote_results db in
          let total_votes := sum_values results in
          if (0 <? total_votes)%nat then
            let winner := leading results in
            (true,
             set_auto_declaration_processed true
               (set_declaration true (Some winner) true ss))
          else (false, ss)
        else (false, ss)
  end.

(** ** The pages

    A run of a page reads the widgets of the request, may change the store
    and the session, and ends in one of four ways. *)

Inductive outcome :=
  | Rerun                      (* [st.rerun()] *)
  | Returned                   (* the page was drawn to its end *)
  | Error (msg : string)       (* [st.error(msg)] *)
  | Crashed.                   (* an uncaught exception *)

Definition page_result : Type := outcome * database * session_state.

Definition set_admin_logged_in (b : bool) (ss : session_state) : session_state :=
  SessionState (page ss) b (student_logged_in ss) (current_student ss)
    (winner_declared ss) (declared_winner ss) (registration_success ss)
    (auto_declared ss) (auto_declaration_processed ss).

(** *** Home *)

Record home_widgets := HomeWidgets {
  student_sign_up : bool;
  vote_now : bool;
  to_admin_panel : bool
}.

Definition show_home_page (w : home_widgets) (db : database) (ss : session_state)
    (now : Z) : page_result :=
  let time_status := get_voting_time_status db now in
  if student_sign_up w then (Rerun, db, set_page signup ss)
  else
    let vote_button_disabled := negb (can_vote time_status) in
    if vote_now w && negb vote_button_disabled then (Rerun, db, set_page vote_page ss)
    else if to_admin_panel w then (Rerun, db, set_page admin_login ss)
    else if bool_decide (status time_status = active)
            && bool_decide (time_remaining time_status ≠ None
                            ∧ time_remaining time_status ≠ Some 0%Z)
    then (Rerun, db, ss)
    else (Returned, db, ss).

(** *** Sign-up *)

Record signup_widgets := SignupWidgets {
  signup_back_to_home : bool;
  go_to_voting_page : bool;
  signup_register_number : string;
  signup_full_name : string;
  submitted : bool
}.

Definition show_signup_page (w : signup_widgets) (db : database) (ss : session_state)
    (now : Z) : page_result :=
  if signup_back_to_home w then
    (Rerun, db, set_registration_success false (set_page home ss))
  else if registration_success ss then
    if go_to_voting_page w then
      (Rerun, db, set_registration_success false (set_page vote_page ss))
    else (Returned, db, ss)
  else
    let register_number := Text.upper (Text.strip (signup_register_number w)) in
    let name := Text.title (Text.strip (signup_full_name w)) in
    if submitted w then
      if bool_decide (register_number = "") || bool_decide (name = "") then
        (Error "Please fill in all fields!", db, ss)
      else if (String.length register_number <? 3)%nat then
        (Error "Register number must be at least 3 characters long!", db, ss)
      else if (String.length name <? 2)%nat then
        (Error "Name must be at least 2 characters long!", db, ss)
      else
        match register_student register_number name db now with
        | (true, _, db') =>
            (Rerun, db',
             set_registration_success true (set_student true (Some register_number) ss))
        | (false, message, db') => (Error message, db', ss)
        end
    else (Returned, db, ss).

(** The three messages with which the form turns an input down. *)
Definition invalid_input_messages : list string :=
  [ "Please fill in all fields!";
    "Register number must be at least 3 characters long!";
    "Name must be at least 2 characters long!" ].

(** The form is drawn and its button pressed. *)
Definition form_submitted (w : signup_widgets) (ss : session_state) : Prop :=
  signup_back_to_home w = false ∧ registration_success ss = false ∧ submitted w = true.

(** *** Voting *)

Record vote_widgets := VoteWidgets {
  vote_back_to_home : bool;
  vote_register_number : string;
  verify_and_vote : bool;
  logout : bool;
  messi_vote : bool;
  ronaldo_vote : bool
}.

Definition voting_failed : string := "Voting failed. Please try again.".

Definition show_voting_page (w : vote_widgets) (db : database) (ss : session_state)
    (now : Z) : page_result :=
  if vote_back_to_home w then (Rerun, db, set_page home ss)
  else
    let time_status := get_voting_time_status db now in
    match status time_status with
    | not_started | ended | disabled => (Returned, db, ss)
    | _ =>
        if negb (student_logged_in ss) then
          let register_number := Text.upper (Text.strip (vote_register_number w)) in
          if verify_and_vote w then
            if is_student_registered register_number db then
              if has_student_voted register_number db then
                (Error "You have already voted!", db, ss)
              else (Rerun, db, set_student true (Some register_number) ss)
            else (Error "Register number not found. Please register first!", db, ss)
          else (Returned, db, ss)
        else
          match current_student ss with
          | None => (Crashed, db, ss)
          | Some student =>
              if has_student_voted student db then
                if logout w then
                  (Rerun, db, set_page home (set_student false None ss))
                else (Returned, db, ss)
              else if can_vote time_status then
                let ronaldo (shown : outcome) (db : database) : page_result :=
                  if ronaldo_vote w then
                    match cast_vote student "Ronaldo" db now with
                    | (true, db') => (Rerun, db', ss)
                    | (false, db') => (Error voting_failed, db', ss)
                    end
                  else (shown, db, ss) in
                if messi_vote w then
                  match cast_vote student "Messi" db now with
                  | (true, db') => (Rerun, db', ss)
                  | (false, db') => ronaldo (Error voting_failed) db'
                  end
                else ronaldo Returned db
              else (Error "❌ Voting is not currently available.", db, ss)
          end
    end.

(** *** Admin login *)

Record login_widgets := LoginWidgets {
  login_back_to_home : bool;
  username : string;
  password : string;
  login_button : bool
}.

Definition show_admin_login (w : login_widgets) (db : database) (ss : session_state)
  : page_result :=
  if login_back_to_home w then (Rerun, db, set_page home ss)
  else if login_button w then
    if bool_decide (username w = "admin") && bool_decide (password w = "admin123") then
      (Rerun, db, set_page admin_panel (set_admin_logged_in true ss))
    else (Error "Invalid credentials!", db, ss)
  else (Returned, db, ss).

(** *** Admin panel

    One run of the panel handles at most one button; a button that the
    panel does not draw in the current state cannot be pressed. *)

Inductive admin_button :=
  | No_button
  | Admin_logout
  | Delete_all_students
  | Declare_winner (winner : string)   (* "Messi", "Ronaldo" or "Tie" *)
  | Reset_winner_declaration
  | Reset_election
  | Set_schedule (start_datetime end_datetime : Z) (auto_declare : bool)
  | Enable_now
  | Disable_voting
  | Quick_preset (minutes : Z)         (* 15, 30, 45 or 60 *)
  | Clear_schedule
  | Toggle_auto_declaration.

(** Instants count microseconds. *)
Definition minute : Z := 60000000.

Definition clear_declaration (ss : session_state) : session_state :=
  set_auto_declaration_processed false (set_declaration false None false ss).

Definition show_admin_panel (b : admin_button) (db : database) (ss : session_state)
    (now : Z) : page_result :=
  if negb (admin_logged_in ss) then (Rerun, db, set_page admin_login ss)
  else
    let total_votes := sum_values (get_vote_results db) in
    match b with
    | No_button => (Returned, db, ss)
    | Admin_logout => (Rerun, db, set_page home (set_admin_logged_in false ss))
    | Delete_all_students =>
        if bool_decide (students db = ∅) then (Returned, db, ss)
        else
          match delete_all_students db with
          | (true, _, db') => (Rerun, db', clear_declaration ss)
          | (false, message, db') => (Error message, db', ss)
          end
    | Declare_winner winner =>
        if (0 <? total_votes)%nat then
          (Rerun, db, set_declaration true (Some winner) false ss)
        else (Returned, db, ss)
    | Reset_winner_declaration =>
        if (0 <? total_votes)%nat && winner_declared ss then
          (Rerun, db, clear_declaration ss)
        else (Returned, db, ss)
    | Reset_election =>
        if (0 <? total_votes)%nat then
          match reset_election db with
          | (true, db') => (Rerun, db', clear_declaration ss)
          | (false, db') =>
              (Error "❌ Failed to reset election. Please try again.", db', ss)
          end
        else (Returned, db, ss)
    | Set_schedule start_datetime end_datetime auto_declare =>
        let india_now := now in
        if (end_datetime <=? start_datetime)%Z then
          (Error "End time must be after start time!", db, ss)
        else if (start_datetime <? india_now)%Z then
          (Error "Start time cannot be in the past!", db, ss)
        else
          match set_voting_time (Some start_datetime) (Some end_datetime)
                                auto_declare db now with
          | (true, db') => (Rerun, db', set_auto_declaration_processed false ss)
          | (false, db') => (Error "❌ Failed to update schedule!", db', ss)
          end
    | Enable_now =>
        match set_voting_time (Some now) None false db now with
        | (true, db') => (Rerun, db', ss)
        | (false, db') => (Error "❌ Failed to enable voting!", db', ss)
        end
    | Disable_voting =>
        let off (s : settings) :=
          Settings (settings_id s) (start_time s) (end_time s) false
                   (auto_declare_winner s) (created_at s) (updated_at s) in
        (Rerun, with_voting_settings (off <$> voting_settings db) db, ss)
    | Quick_preset minutes =>
        let start_time := now in
        let end_time := (start_time + minutes * minute)%Z in
        match set_voting_time (Some start_time) (Some end_time) true db now with
        | (true, db') => (Rerun, db', set_auto_declaration_processed false ss)
        | (false, db') => (Returned, db', ss)
        end
    | Clear_schedule =>
        match get_voting_settings db with
        | Some _ => (Rerun, with_voting_settings None db, ss)
        | None => (Returned, db, ss)
        end
    | Toggle_auto_declaration =>
        match get_voting_settings db with
        | Some current_settings =>
            let current_auto := auto_declare_winner current_settings in
            let toggle (s : settings) :=
              Settings (settings_id s) (start_time s) (end_time s) (voting_enabled s)
                       (negb current_auto) (created_at s) (updated_at s) in
            (Rerun, with_voting_settings (toggle <$> voting_settings db) db, ss)
        | None => (Returned, db, ss)
        end
    end.

(** The session of an administrator on the panel, nothing declared. *)
Definition admin_session : session_state :=
  set_page admin_panel (set_admin_logged_in true initial_session).

(** ** One run of the script, and the runs of several browser sessions *)

Record request := Request {
  on_home : home_widgets;
  on_signup : signup_widgets;
  on_vote : vote_widgets;
  on_admin_login : login_widgets;
  on_admin_panel : admin_button
}.

(** [init_session_state] ends with the automatic declaration. *)
Definition init_session_state (db : database) (ss : session_state) (now : Z)
  : session_state :=
  (auto_declare_winner_if_time_ended db ss now).2.

Definition main (r : request) (db : database) (ss : session_state) (now : Z)
  : page_result :=
  let ss := init_session_state db ss now in
  match page ss with
  | home => show_home_page (on_home r) db ss now
  | signup => show_signup_page (on_signup r) db ss now
  | vote_page => show_voting_page (on_vote r) db ss now
  | admin_login => show_admin_login (on_admin_login r) db ss
  | admin_panel => show_admin_panel (on_admin_panel r) db ss now
  end.

(** The server: one store, one session state per browser session; the
    requests are served one after the other. *)
Record server := Server {
  store : database;
  sessions : gmap nat session_state
}.

Definition serve (sid : nat) (r : request) (now : Z) (sv : server) : server :=
  let ss := default initial_session (sessions sv !! sid) in
  match main r (store sv) ss now with
  | (_, db', ss') => Server db' (<[sid := ss']> (sessions sv))
  end.

Fixpoint serve_all (rs : list (nat * request * Z)) (sv : server) : server :=
  match rs with
  | [] => sv
  | (sid, r, now) :: rs => serve_all rs (serve sid r now sv)
  end.

(** ** Sample requests and sessions *)

(** The widgets of the voting page, untouched but for the two vote
    buttons. *)
Definition press_vote (messi ronaldo : bool) : vote_widgets :=
  VoteWidgets false "" false false messi ronaldo.

(** A request that touches the voting page only. *)
Definition vote_request (w : vote_widgets) : request :=
  Request (HomeWidgets false false false)
          (SignupWidgets false false "" "" false)
          w
          (LoginWidgets false "" "" false)
          No_button.

(** The session of a student on the voting page, logged in to vote. *)
Definition voter_session (student : string) : session_state :=
  set_page vote_page (set_student true (Some student) initial_session).

(** A request that presses a button of the admin panel. *)
Definition panel_request (b : admin_button) : request :=
  Request (HomeWidgets false false false)
          (SignupWidgets false false "" "" false)
          (press_vote false false)
          (LoginWidgets false "" "" false)
          b.

(** An election under way: three students, a window from 100 to 200 with
    automatic declaration, no vote yet; the administrator on the panel and
    the three students on the voting page. *)
Definition first_election : database :=
  (set_voting_time (Some 100%Z) (Some 200%Z) true
     (register_student "s3" "cy"
        (register_student "s2" "bo"
           (register_student "s1" "al" (empty_database false) 10).2 20).2 30).2 50).2.

Definition first_sessions : gmap nat session_state :=
  <[0 := admin_session]>
    (<[1 := voter_session "S1"]>
       (<[2 := voter_session "S2"]>
          (<[3 := voter_session "S3"]> ∅))).

(** ** Invariants of the store *)

(** No register number has two rows in [votes]. *)
Definition one_vote_each (db : database) : Prop :=
  NoDup (register_number <$> votes db).

(** Every key of [students] is in normalized form. *)
Definition keys_normalized (db : database) : Prop :=
  ∀ k, is_Some (students db !! k) → normalize k = k.

(** [v] is [k] up to the case of its ASCII letters and to white space
    around it. *)
Definition ascii_variant (k v : string) : Prop :=
  ∃ l c r, v = l +:+ c +:+ r
           ∧ Text.blank l = true ∧ Text.blank r = true
           ∧ Text.same_text c k = true.

(** U+212A KELVIN SIGN, in UTF-8.  It is an upper-case letter that is not
    white space: [str.strip] and [str.upper] leave it as it is, and its
    lower-case form, by [str.lower], is the ASCII letter k. *)
Definition kelvin_sign : string := String "226" (String "132" (String "170" "")).

(** ** The time remaining, in words *)

Module Timedelta.

(** A [timedelta] is a number of microseconds; [days] and [seconds] are its
    attributes of those names, [seconds] being the seconds within the day. *)
Definition days (time_delta : Z) : Z := (time_delta / 86400000000)%Z.

Definition seconds (time_delta : Z) : Z :=
  ((time_delta mod 86400000000) / 1000000)%Z.

End Timedelta.

(** [str(n)] for an [int]. *)
Definition decimal (n : Z) : string := NilZero.string_of_int (Z.to_int n).

Definition format_time_remaining (time_delta : Z) : string :=
  let days := Timedelta.days time_delta in
  let seconds := Timedelta.seconds time_delta in
  if (0 <? days)%Z then
    decimal days +:+ " days, " +:+ decimal (seconds / 3600) +:+ " hours, "
      +:+ decimal ((seconds mod 3600) / 60) +:+ " minutes"
  else if (3600 <=? seconds)%Z then
    let hours := (seconds / 3600)%Z in
    let minutes := ((seconds mod 3600) / 60)%Z in
    decimal hours +:+ " hours, " +:+ decimal minutes +:+ " minutes"
  else if (60 <=? seconds)%Z then
    let minutes := (seconds / 60)%Z in
    let seconds := (seconds mod 60)%Z in
    decimal minutes +:+ " minutes, " +:+ decimal seconds +:+ " seconds"
  else decimal seconds +:+ " seconds".

(** ** Further invariants *)

(** Every vote is the vote of a registered student. *)
Definition votes_reference_students (db : database) : Prop :=
  ∀ v, v ∈ votes db → is_Some (students db !! register_number v).

(** Every vote is for one of the two candidates of the voting page. *)
Definition two_candidates (db : database) : Prop :=
  ∀ v, v ∈ votes db → candidate v = "Messi" ∨ candidate v = "Ronaldo".

(** A session that is logged in to vote names its student. *)
Definition session_ok (ss : session_state) : Prop :=
  student_logged_in ss = true → is_Some (current_student ss).

(** The flags of the declaration go together: the marker and the
    "automatic" flag are set only while a winner stands declared, and a
    winner stands declared exactly when one is named. *)
Definition declaration_consistent (ss : session_state) : Prop :=
  (auto_declaration_processed ss = true → winner_declared ss = true)
  ∧ (auto_declared ss = true → winner_declared ss = true)
  ∧ (winner_declared ss = true ↔ is_Some (declared_winner ss)).

(** A schedule with both bounds starts before it ends. *)
Definition schedule_ordered (db : database) : Prop :=
  ∀ s start finish,
    voting_settings db = Some s →
    start_time s = Some start → end_time s = Some finish →
    (start < finish)%Z.

(** The buttons the panel draws: four presets, three declarations. *)
Definition preset_minutes : list Z := [15; 30; 45; 60]%Z.

Definition declarable : list string := ["Messi"; "Ronaldo"; "Tie"].

Definition button_drawn (b : admin_button) : Prop :=
  match b with
  | Quick_preset minutes => minutes ∈ preset_minutes
  | Declare_winner winner => winner ∈ declarable
  | _ => True
  end.

(** * Properties *)

(** ** Text: trimming and casing *)

Section text_facts.
Import Text.

Example strip_upper_ab12 : upper (strip "  ab12  ") = "AB12".
Proof. reflexivity. Qed.

Example title_full_name :
  title (strip " john  o'neil-SMITH ") = "John  O'Neil-Smith".
Proof. reflexivity. Qed.

Lemma isspace_upper_char a : isspace (upper_char a) = isspace a.
Proof. by destruct a as [[] [] [] [] [] [] [] []]. Qed.

Lemma upper_char_idemp a : upper_char (upper_char a) = upper_char a.
Proof. by destruct a as [[] [] [] [] [] [] [] []]. Qed.

Lemma upper_idemp s : upper (upper s) = upper s.
Proof. induction s as [|a s IH]; simpl; [done|]. by rewrite upper_char_idemp, IH. Qed.

Lemma upper_app s t : upper (s +:+ t) = upper s +:+ upper t.
Proof. induction s as [|a s IH]; simpl; [done|]. by rewrite IH. Qed.

Lemma lstrip_upper s : lstrip (upper s) = upper (lstrip s).
Proof.
  induction s as [|a s IH]; simpl; [done|].
  rewrite isspace_upper_char. by destruct (isspace a).
Qed.

Lemma rstrip_upper s : rstrip (upper s) = upper (rstrip s).
Proof.
  induction s as [|a s IH]; simpl; [done|].
  rewrite IH, isspace_upper_char.
  by destruct (rstrip s), (isspace a).
Qed.

Lemma strip_upper s : strip (upper s) = upper (strip s).
Proof. unfold strip. by rewrite lstrip_upper, rstrip_upper. Qed.

Lemma lstrip_blank s : blank s = true → lstrip s = "".
Proof.
  induction s as [|a s IH]; simpl; [done|].
  destruct (isspace a); [auto|done].
Qed.

Lemma rstrip_blank s : blank s = true → rstrip s = "".
Proof.
  induction s as [|a s IH]; simpl; [done|].
  destruct (isspace a) eqn:Ha; [|done].
  intros Hs. by rewrite (IH Hs).
Qed.

Lemma lstrip_app_blank l s : blank l = true → lstrip (l +:+ s) = lstrip s.
Proof.
  induction l as [|a l IH]; simpl; [done|].
  destruct (isspace a); [auto|done].
Qed.

Lemma rstrip_app_blank s r : blank r = true → rstrip (s +:+ r) = rstrip s.
Proof.
  intros Hr. induction s as [|a s IH]; simpl.
  - by apply rstrip_blank.
  - by rewrite IH.
Qed.

(** Trimming on the left and on the right commute. *)
Lemma rstrip_lstrip s : rstrip (lstrip s) = lstrip (rstrip s).
Proof.
  induction s as [|a s IH]; [done|].
  cbn [lstrip rstrip]. destruct (isspace a) eqn:Ha.
  - rewrite IH. destruct (rstrip s) eqn:Hr; [done|].
    cbn [lstrip]. by rewrite Ha.
  - cbn [rstrip]. destruct (rstrip s); cbn [lstrip]; by rewrite Ha.
Qed.

Lemma lstrip_idemp s : lstrip (lstrip s) = lstrip s.
Proof.
  induction s as [|a s IH]; simpl; [done|].
  destruct (isspace a) eqn:Ha; [done|]. simpl. by rewrite Ha.
Qed.

Lemma rstrip_idemp s : rstrip (rstrip s) = rstrip s.
Proof.
  induction s as [|a s IH]; simpl; [done|].
  destruct (rstrip s) as [|b r] eqn:Hr.
  - destruct (isspace a) eqn:Ha; simpl; [done|]. by rewrite Ha.
  - cbn [rstrip] in *. by rewrite IH.
Qed.

Lemma strip_idemp s : strip (strip s) = strip s.
Proof.
  unfold strip.
  by rewrite (rstrip_lstrip s), lstrip_idemp, (rstrip_lstrip (rstrip s)), rstrip_idemp.
Qed.

(** White space around a string is trimmed away. *)
Lemma strip_padding l s r :
  blank l = true → blank r = true → strip (l +:+ s +:+ r) = strip s.
Proof.
  intros Hl Hr. unfold strip.
  rewrite lstrip_app_blank by done.
  by rewrite !rstrip_lstrip, rstrip_app_blank.
Qed.

End text_facts.

(** ** Registration *)

Section registration.
Implicit Types (db : database) (rn nm : string) (now : Z).

Lemma normalize_idemp rn : normalize (normalize rn) = normalize rn.
Proof.
  unfold normalize. by rewrite strip_upper, upper_idemp, strip_idemp.
Qed.

(** Padding with white space and changing the case of letters do not
    change the normalized register number. *)
Lemma normalize_variant l c r rn :
  Text.blank l = true → Text.blank r = true → Text.upper c = Text.upper rn →
  normalize (l +:+ c +:+ r) = normalize rn.
Proof.
  intros Hl Hr Hc. unfold normalize.
  rewrite strip_padding by done.
  by rewrite <- !strip_upper, Hc.
Qed.

Lemma is_student_registered_spec rn db :
  is_student_registered rn db = true ↔ is_Some (students db !! normalize rn).
Proof. unfold is_student_registered, normalize. apply bool_decide_eq_true. Qed.

Lemma register_student_fresh rn nm db now :
  students db !! normalize rn = None →
  register_student rn nm db now =
    (true, "Registration successful!",
     with_students
       (<[normalize rn := Student (Text.title (Text.strip nm)) now]> (students db)) db).
Proof. unfold register_student, normalize. by intros ->. Qed.

Lemma register_student_taken rn nm db now :
  is_Some (students db !! normalize rn) →
  register_student rn nm db now =
    (false, "This register number is already registered!", db).
Proof. unfold register_student, normalize. by intros [st ->]. Qed.

Lemma register_student_success rn nm db now msg db' :
  register_student rn nm db now = (true, msg, db') →
  students db !! normalize rn = None ∧
  db' = with_students
          (<[normalize rn := Student (Text.title (Text.strip nm)) now]> (students db)) db.
Proof.
  unfold register_student, normalize.
  destruct (students db !! _) eqn:E; intros [= <- <-]; done.
Qed.

(** [register_student] itself takes any text, the empty one included: the
    lengths are checked by the form that calls it. *)
Lemma register_student_does_not_validate :
  register_student "" "" (empty_database false) 0
  = (true, "Registration successful!",
     with_students (<["" := Student "" 0]> ∅) (empty_database false)).
Proof. reflexivity. Qed.

End registration.

(** C6. A second registration under a register number whose normalized form
    is already a key of [students] fails with the message "This register
    number is already registered!", and the store is the one it was: the
    table of students and their count are unchanged. *)
Theorem duplicate_registration_rejected (rn nm : string) (db : database) (now : Z) :
  is_Some (students db !! normalize rn) →
  register_student rn nm db now =
    (false, "This register number is already registered!", db)
  ∧ students (register_student rn nm db now).2 = students db
  ∧ get_student_count (register_student rn nm db now).2 = get_student_count db.
Proof.
  intros Hin. by rewrite register_student_taken.
Qed.

(** Registering twice in a row: the first call succeeds on a store that has
    no such student, the second is rejected and changes nothing. *)
Lemma duplicate_registration_rejected_witness :
  let db1 := (register_student "  ab12  " "ann lee" (empty_database false) 10).2 in
  is_Some (students db1 !! normalize "AB12")
  ∧ register_student "AB12" "Bob" db1 20 =
      (false, "This register number is already registered!", db1)
  ∧ students (register_student "AB12" "Bob" db1 20).2 = students db1
  ∧ get_student_count (register_student "AB12" "Bob" db1 20).2 = get_student_count db1.
Proof.
  assert (H : is_Some (students
                (register_student "  ab12  " "ann lee" (empty_database false) 10).2
                !! normalize "AB12")).
  { vm_compute. eauto. }
  split; [exact H|].
  exact (duplicate_registration_rejected "AB12" "Bob" _ 20 H).
Defined.

(** ** The name as it is stored: [strip] then [title] *)

Section title_facts.
Import Text.

Lemma title_from_cons cased a s :
  title_from cased (String a s) =
    String (title_char cased a) (title_from (is_cased a) s).
Proof.
  unfold title_char, is_cased. simpl.
  destruct (islower a); [done|]. by destruct (isupper a).
Qed.

Lemma title_char_idemp cased a :
  title_char cased (title_char cased a) = title_char cased a
  ∧ is_cased (title_char cased a) = is_cased a
  ∧ isspace (title_char cased a) = isspace a.
Proof. by destruct cased, a as [[] [] [] [] [] [] [] []]. Qed.

Lemma title_from_idemp cased s :
  title_from cased (title_from cased s) = title_from cased s.
Proof.
  revert cased. induction s as [|a s IH]; intros cased; [done|].
  rewrite !title_from_cons.
  destruct (title_char_idemp cased a) as (-> & -> & _). by rewrite IH.
Qed.

Lemma title_from_length cased s :
  String.length (title_from cased s) = String.length s.
Proof.
  revert cased. induction s as [|a s IH]; intros cased; [done|].
  rewrite title_from_cons. simpl. by rewrite IH.
Qed.

Lemma isspace_not_cased a : isspace a = true → is_cased a = false.
Proof. by destruct a as [[] [] [] [] [] [] [] []]. Qed.

Lemma lstrip_title s : lstrip (title s) = title (lstrip s).
Proof.
  unfold title. induction s as [|a s IH]; [done|].
  rewrite title_from_cons. cbn [lstrip].
  destruct (title_char_idemp false a) as (_ & _ & ->).
  destruct (isspace a) eqn:Ha.
  - by rewrite (isspace_not_cased a Ha).
  - by rewrite title_from_cons.
Qed.

Lemma rstrip_title_from cased s :
  rstrip (title_from cased s) = title_from cased (rstrip s).
Proof.
  revert cased. induction s as [|a s IH]; intros cased; [done|].
  rewrite title_from_cons. cbn [rstrip]. rewrite IH.
  destruct (title_char_idemp cased a) as (_ & _ & ->).
  destruct (rstrip s) as [|b r] eqn:Hr.
  - destruct (isspace a); [done|]. by rewrite title_from_cons.
  - by rewrite (title_from_cons cased a), !(title_from_cons _ b r).
Qed.

Lemma strip_title s : strip (title s) = title (strip s).
Proof. unfold strip. rewrite lstrip_title. apply rstrip_title_from. Qed.

(** Cleaning a name that is already clean changes nothing. *)
Lemma clean_name_idemp s :
  title (strip (title (strip s))) = title (strip s).
Proof.
  rewrite strip_title, strip_idemp. apply title_from_idemp.
Qed.

End title_facts.

(** ** The sign-up form *)

Lemma register_student_clean (rn nm : string) (db : database) (now : Z) :
  register_student (normalize rn) (Text.title (Text.strip nm)) db now =
  register_student rn nm db now.
Proof.
  unfold register_student. fold (normalize (normalize rn)) (normalize rn).
  by rewrite normalize_idemp, clean_name_idemp.
Qed.

(** What a submitted form does, input by input. *)
Lemma show_signup_page_submitted (w : signup_widgets) (db : database)
    (ss : session_state) (now : Z) :
  form_submitted w ss →
  let rn := normalize (signup_register_number w) in
  let nm := Text.title (Text.strip (signup_full_name w)) in
  show_signup_page w db ss now =
    if bool_decide (rn = "") || bool_decide (nm = "") then
      (Error "Please fill in all fields!", db, ss)
    else if (String.length rn <? 3)%nat then
      (Error "Register number must be at least 3 characters long!", db, ss)
    else if (String.length nm <? 2)%nat then
      (Error "Name must be at least 2 characters long!", db, ss)
    else
      match students db !! rn with
      | None =>
          (Rerun, with_students (<[rn := Student nm now]> (students db)) db,
           set_registration_success true (set_student true (Some rn) ss))
      | Some _ => (Error "This register number is already registered!", db, ss)
      end.
Proof.
  intros (Hb & Hs & Hsub). cbn zeta.
  unfold show_signup_page. rewrite Hb, Hs, Hsub.
  fold (normalize (signup_register_number w)).
  destruct (_ || _); [done|].
  destruct (_ <? 3)%nat; [done|].
  destruct (_ <? 2)%nat; [done|].
  rewrite register_student_clean.
  destruct (students db !! normalize (signup_register_number w)) eqn:E.
  - by rewrite register_student_taken by eauto.
  - by rewrite register_student_fresh by done.
Qed.

(** A run of the sign-up page that is not a submitted form leaves the store
    alone. *)
Lemma show_signup_page_idle (w : signup_widgets) (db : database)
    (ss : session_state) (now : Z) :
  ¬ form_submitted w ss → (show_signup_page w db ss now).1.2 = db.
Proof.
  unfold form_submitted, show_signup_page. intros Hn.
  destruct (signup_back_to_home w); [done|].
  destruct (registration_success ss); [by destruct (go_to_voting_page w)|].
  destruct (submitted w); [|done]. by destruct Hn.
Qed.

Lemma form_submitted_dec (w : signup_widgets) (ss : session_state) :
  form_submitted w ss ∨ ¬ form_submitted w ss.
Proof.
  unfold form_submitted.
  destruct (signup_back_to_home w), (registration_success ss), (submitted w);
    first [by left | by right; intros (? & ? & ?)].
Qed.

(** C8, as the claim has it, fails on [register_student]: it checks no
    length and registers the register number "ab", of two characters, with
    the name "x", of one, and an empty register number with an empty
    name. *)
Lemma register_student_accepts_short_input :
  (String.length (normalize "ab") < 3)%nat
  ∧ (String.length (Text.title (Text.strip "x")) < 2)%nat
  ∧ register_student "ab" "x" (empty_database false) 0
    = (true, "Registration successful!",
       with_students (<["AB" := Student "X" 0]> ∅) (empty_database false))
  ∧ register_student "" "" (empty_database false) 0
    = (true, "Registration successful!",
       with_students (<["" := Student "" 0]> ∅) (empty_database false)).
Proof. split_and!; [simpl; lia..|reflexivity|reflexivity]. Qed.

(** C8, amended.  The lengths are checked by the registration form, before
    it calls [register_student].  For a register number and a name written
    in ASCII: when, after trimming and casing, the register number is
    shorter than 3 characters (the empty one included) or the name is
    shorter than 2, a submitted form ends in one of the three validation
    errors and no run of the page changes the store; the store changes only
    when both lengths are in order, and then by the insertion of that one
    student; and a submitted form with both lengths in order goes on to
    [register_student], which inserts the student unless the normalized
    register number is taken. *)
Theorem registration_input_validated (w : signup_widgets) (db : database)
    (ss : session_state) (now : Z) :
  Text.is_ascii (signup_register_number w) = true →
  Text.is_ascii (signup_full_name w) = true →
  let rn := normalize (signup_register_number w) in
  let nm := Text.title (Text.strip (signup_full_name w)) in
  let result := show_signup_page w db ss now in
  ((String.length rn < 3)%nat ∨ (String.length nm < 2)%nat →
     result.1.2 = db
     ∧ (form_submitted w ss →
        ∃ msg, result = (Error msg, db, ss) ∧ msg ∈ invalid_input_messages))
  ∧ (result.1.2 ≠ db →
     (3 ≤ String.length rn)%nat ∧ (2 ≤ String.length nm)%nat
     ∧ form_submitted w ss
     ∧ students db !! rn = None
     ∧ result = (Rerun,
                 with_students (<[rn := Student nm now]> (students db)) db,
                 set_registration_success true (set_student true (Some rn) ss)))
  ∧ (form_submitted w ss →
     (3 ≤ String.length rn)%nat → (2 ≤ String.length nm)%nat →
     result =
       match students db !! rn with
       | None =>
           (Rerun, with_students (<[rn := Student nm now]> (students db)) db,
            set_registration_success true (set_student true (Some rn) ss))
       | Some _ => (Error "This register number is already registered!", db, ss)
       end).
Proof.
  intros _ _. cbn zeta.
  destruct (form_submitted_dec w ss) as [Hsub|Hidle].
  - rewrite (show_signup_page_submitted w db ss now Hsub). cbn zeta.
    set (rn := normalize (signup_register_number w)).
    set (nm := Text.title (Text.strip (signup_full_name w))).
    unfold invalid_input_messages.
    destruct (bool_decide (rn = "") || bool_decide (nm = "")) eqn:Hempty.
    { split; [|split; [done|]].
      - intros _. split; [done|]. intros _.
        eexists; split; [done|]. set_solver.
      - intros _ Hrn Hnm. apply orb_true_iff in Hempty as [He|He];
          apply bool_decide_eq_true in He; rewrite He in *; simpl in *; lia. }
    destruct (Nat.ltb_spec (String.length rn) 3) as [Hrn|Hrn].
    { split; [|split; [done|intros; lia]]. intros _. split; [done|]. intros _.
      eexists; split; [done|]. set_solver. }
    destruct (Nat.ltb_spec (String.length nm) 2) as [Hnm|Hnm].
    { split; [|split; [done|intros; lia]]. intros _. split; [done|]. intros _.
      eexists; split; [done|]. set_solver. }
    split; [lia|]. split; [|done].
    destruct (students db !! rn) eqn:E; [done|]. by intros _.
  - pose proof (show_signup_page_idle w db ss now Hidle) as Hdb.
    split; [|split; [done|done]]. intros _. split; [done|]. by intros ?.
Qed.

(** A blank register number is turned down; "ab1" with "al" gets through
    and is stored as "AB1", "Al"; a second "ab1" is told it is taken. *)
Lemma registration_input_validated_witness :
  let w := SignupWidgets false false "   " "Ann Lee" true in
  let w' := SignupWidgets false false " ab1 " " al" true in
  let db := empty_database false in
  let db' := with_students (<["AB1" := Student "Al" 5]> (students db)) db in
  ((show_signup_page w db initial_session 5).1.2 = db
   ∧ ∃ msg, show_signup_page w db initial_session 5 = (Error msg, db, initial_session)
            ∧ msg ∈ invalid_input_messages)
  ∧ (show_signup_page w' db initial_session 5).1.2 = db'
  ∧ show_signup_page w' db' initial_session 6
    = (Error "This register number is already registered!", db', initial_session).
Proof.
  cbn zeta. split; [|split].
  - pose proof (registration_input_validated
                  (SignupWidgets false false "   " "Ann Lee" true)
                  (empty_database false) initial_session 5 eq_refl eq_refl)
      as [Hrej _].
    destruct Hrej as [Hdb Hmsg].
    { left. vm_compute. lia. }
    split; [exact Hdb|]. apply Hmsg. by vm_compute.
  - pose proof (registration_input_validated
                  (SignupWidgets false false " ab1 " " al" true)
                  (empty_database false) initial_session 5 eq_refl eq_refl)
      as (_ & Hins & _).
    destruct Hins as (_ & _ & _ & _ & ->); [|done].
    intros H. apply (f_equal (λ d, size (students d))) in H.
    vm_compute in H. discriminate H.
  - pose proof (registration_input_validated
                  (SignupWidgets false false " ab1 " " al" true)
                  (with_students (<["AB1" := Student "Al" 5]> ∅) (empty_database false))
                  initial_session 6 eq_refl eq_refl)
      as (_ & _ & Hgo).
    assert (Hsub : form_submitted (SignupWidgets false false " ab1 " " al" true)
                                  initial_session) by (by vm_compute).
    specialize (Hgo Hsub ltac:(vm_compute; lia) ltac:(vm_compute; lia)).
    exact Hgo.
Defined.

(** ** The voting window *)

Section window.
Local Open Scope Z_scope.

(** The status of a schedule that is enabled and has both bounds. *)
Lemma get_voting_time_status_bounded db s (start finish now : Z) :
  get_voting_settings db = Some s →
  voting_enabled s = true →
  start_time s = Some start →
  end_time s = Some finish →
  get_voting_time_status db now =
    if now <? start then
      TimeStatus not_started (Voting_will_start_at start) false None (Some start) None
    else if now >? finish then
      TimeStatus ended (Voting_ended_at finish) false None None (Some finish)
    else
      TimeStatus active (Voting_is_active_until finish) true
                 (Some (finish - now)) None (Some finish).
Proof.
  intros Hs He Hst Hen. unfold get_voting_time_status.
  by rewrite Hs, He, Hst, Hen.
Qed.

(** C3. For a schedule that is enabled, has both bounds and starts before
    it ends, the status is [not_started] exactly before the start, [active]
    exactly from the start to the end, both included, and [ended] exactly
    after the end; voting is allowed exactly when the status is [active],
    and the time remaining is then the end minus the current time. *)
Theorem voting_window_trichotomy db s (start finish now : Z) :
  get_voting_settings db = Some s →
  voting_enabled s = true →
  start_time s = Some start →
  end_time s = Some finish →
  start < finish →
  let time_status := get_voting_time_status db now in
  (status time_status = not_started ↔ now < start)
  ∧ (status time_status = active ↔ start ≤ now ≤ finish)
  ∧ (status time_status = ended ↔ finish < now)
  ∧ (can_vote time_status = true ↔ status time_status = active)
  ∧ (status time_status = active →
     time_remaining time_status = Some (finish - now))
  ∧ (now = finish → status time_status = active).
Proof.
  intros Hs He Hst Hen Hlt. cbn zeta.
  rewrite (get_voting_time_status_bounded db s start finish now) by done.
  rewrite Z.gtb_ltb.
  destruct (Z.ltb_spec now start), (Z.ltb_spec finish now); simpl;
    repeat split; intros; try done; try lia.
Qed.

(** A window from 100 to 200, read at its last instant. *)
Lemma voting_window_trichotomy_witness :
  let db := (set_voting_time (Some 100) (Some 200) true (empty_database false) 50).2 in
  let time_status := get_voting_time_status db 200 in
  (status time_status = not_started ↔ 200 < 100)
  ∧ (status time_status = active ↔ 100 ≤ 200 ≤ 200)
  ∧ (status time_status = ended ↔ 200 < 200)
  ∧ (can_vote time_status = true ↔ status time_status = active)
  ∧ (status time_status = active → time_remaining time_status = Some (200 - 200))
  ∧ (200 = 200 → status time_status = active).
Proof.
  exact (voting_window_trichotomy
           (set_voting_time (Some 100) (Some 200) true (empty_database false) 50).2
           (Settings 1 (Some 100) (Some 200) true true 50 50) 100 200 200
           eq_refl eq_refl eq_refl eq_refl eq_refl).
Defined.

(** C10. The gate [is_voting_active] and the field [can_vote] of
    [get_voting_time_status] agree on every store (no schedule, a disabled
    one, an enabled one without bounds, one with both bounds) at every
    time. *)
Theorem is_voting_active_can_vote db (now : Z) :
  is_voting_active db now = can_vote (get_voting_time_status db now).
Proof.
  unfold is_voting_active, get_voting_time_status.
  destruct (get_voting_settings db) as [s|]; [|done].
  destruct (voting_enabled s) eqn:He; simpl; [|done].
  destruct (start_time s) as [start|]; [|done].
  destruct (end_time s) as [finish|]; [|done].
  rewrite Z.gtb_ltb.
  destruct (Z.ltb_spec now start), (Z.ltb_spec finish now); simpl; lia.
Qed.

End window.

(** ** The tally *)

Section tally.
Implicit Types (vs : list vote) (c : string) (d : gmap string nat).

(** Filling a dictionary from rows [(c, f c)]: a key among the rows gets
    its row's count, any other key keeps what it had. *)
Lemma fill_lookup (f : string → nat) (cs : list string) d c :
  foldl (λ vote_dict row, <[row.1 := row.2]> vote_dict) d ((λ c, (c, f c)) <$> cs) !! c
  = if decide (c ∈ cs) then Some (f c) else d !! c.
Proof.
  revert d. induction cs as [|c' cs IH]; intros d; simpl.
  - done.
  - rewrite IH. destruct (decide (c ∈ cs)) as [Hin|Hnin].
    + rewrite decide_True; [done|]. by right.
    + destruct (decide (c = c')) as [->|Hne].
      * rewrite decide_True by left. apply lookup_insert_eq.
      * rewrite decide_False by (rewrite elem_of_cons; by intros [?|?]).
        by apply lookup_insert_ne.
Qed.

Lemma count_votes_absent c vs : c ∉ candidate <$> vs → count_votes c vs = 0.
Proof.
  unfold count_votes. induction vs as [|v vs IH]; simpl; [done|].
  rewrite not_elem_of_cons. intros [Hne Hnin].
  rewrite filter_cons_False by done. auto.
Qed.

Lemma get_vote_results_lookup db c :
  get_vote_results db !! c =
    if decide (c ∈ candidate <$> votes db) then Some (count_votes c (votes db))
    else if decide (c = "Messi" ∨ c = "Ronaldo") then Some 0
    else None.
Proof.
  unfold get_vote_results, votes_by_candidate. rewrite fill_lookup.
  destruct (decide (c ∈ remove_dups _)) as [Hin|Hnin];
    rewrite elem_of_remove_dups in *.
  - by rewrite decide_True.
  - rewrite decide_False by done.
    destruct (decide (c = "Messi")) as [->|?]; [done|].
    rewrite lookup_insert_ne by done.
    destruct (decide (c = "Ronaldo")) as [->|?]; [done|].
    rewrite lookup_insert_ne by done.
    rewrite decide_False by (by intros [?|?]). done.
Qed.

(** Both candidates are always keys of the tally. *)
Lemma get_vote_results_both db c :
  c = "Messi" ∨ c = "Ronaldo" →
  get_vote_results db !! c = Some (count_votes c (votes db)).
Proof.
  intros Hc. rewrite get_vote_results_lookup.
  destruct (decide (c ∈ _)) as [|Hnin]; [done|].
  rewrite decide_True by done. by rewrite count_votes_absent.
Qed.

Lemma votes_for_both db c :
  c = "Messi" ∨ c = "Ronaldo" →
  votes_for c (get_vote_results db) = count_votes c (votes db).
Proof. intros Hc. unfold votes_for. by rewrite get_vote_results_both. Qed.

Lemma count_votes_candidates c vs :
  count_votes c vs = length (filter (λ x, x = c) (candidate <$> vs)).
Proof.
  unfold count_votes. induction vs as [|v vs IH]; simpl; [done|].
  destruct (decide (candidate v = c)) as [Hc|Hc].
  - rewrite !filter_cons_True by done. simpl. by rewrite IH.
  - by rewrite !filter_cons_False by done.
Qed.

End tally.

(** C7. On every store the tally has an entry for "Messi" and one for
    "Ronaldo", each the number of votes for that candidate, hence 0 for a
    candidate nobody voted for; when the votes are two for Messi and one
    for Ronaldo, in any order, the tally is exactly Messi 2, Ronaldo 1. *)
Theorem tally_has_both_candidates (db : database) :
  get_vote_results db !! "Messi" = Some (count_votes "Messi" (votes db))
  ∧ get_vote_results db !! "Ronaldo" = Some (count_votes "Ronaldo" (votes db))
  ∧ (∀ c, c = "Messi" ∨ c = "Ronaldo" → c ∉ candidate <$> votes db →
          get_vote_results db !! c = Some 0)
  ∧ (candidate <$> votes db ≡ₚ ["Messi"; "Messi"; "Ronaldo"] →
     get_vote_results db = <["Messi" := 2]> (<["Ronaldo" := 1]> ∅)).
Proof.
  split; [|split; [|split]].
  - apply get_vote_results_both. by left.
  - apply get_vote_results_both. by right.
  - intros c Hc Hnin. rewrite get_vote_results_both by done.
    by rewrite count_votes_absent.
  - intros Hperm. apply map_eq. intros c.
    rewrite get_vote_results_lookup, count_votes_candidates.
    destruct (decide (c ∈ candidate <$> votes db)) as [Hin|Hnin];
      rewrite Hperm in *.
    + rewrite !elem_of_cons, elem_of_nil in Hin.
      destruct Hin as [->|[->|[->|[]]]]; done.
    + rewrite !not_elem_of_cons in Hnin. destruct Hnin as (Hm & _ & Hr & _).
      rewrite decide_False by (by intros [?|?]).
      by rewrite !lookup_insert_ne.
Qed.

(** Three students vote Messi, Ronaldo, Messi through [cast_vote]. *)
Lemma tally_has_both_candidates_witness :
  let db0 := (register_student "s1" "a" (empty_database true) 0).2 in
  let db1 := (register_student "s2" "b" db0 0).2 in
  let db2 := (register_student "s3" "c" db1 0).2 in
  let db3 := (cast_vote "s1" "Messi" db2 1).2 in
  let db4 := (cast_vote "s2" "Ronaldo" db3 2).2 in
  let db5 := (cast_vote "s3" "Messi" db4 3).2 in
  get_vote_results (empty_database true) !! "Messi" = Some 0
  ∧ get_vote_results db5 = <["Messi" := 2]> (<["Ronaldo" := 1]> ∅).
Proof.
  cbn zeta. split.
  - apply (tally_has_both_candidates (empty_database true)); [by left|].
    vm_compute. apply not_elem_of_nil.
  - apply tally_has_both_candidates. vm_compute.
    apply perm_skip, perm_swap.
Defined.

(** ** The total of the tally is the number of votes *)

Section total.
Implicit Types (vs : list vote) (c k : string) (m : gmap string nat).

Lemma sum_values_empty : sum_values ∅ = 0.
Proof. unfold sum_values. apply map_fold_empty. Qed.

Lemma sum_values_insert k n m :
  m !! k = None → sum_values (<[k := n]> m) = n + sum_values m.
Proof.
  intros Hk. unfold sum_values.
  rewrite map_fold_insert_L; [done| |done].
  intros. lia.
Qed.

Lemma count_votes_cons c v vs :
  count_votes c (v :: vs) =
    (if decide (candidate v = c) then 1 else 0) + count_votes c vs.
Proof.
  unfold count_votes. destruct (decide (candidate v = c)).
  - by rewrite filter_cons_True.
  - by rewrite filter_cons_False.
Qed.

Lemma count_votes_others c k vs :
  c ≠ k → count_votes c (filter (λ v, candidate v ≠ k) vs) = count_votes c vs.
Proof.
  intros Hne. induction vs as [|v vs IH]; [done|].
  rewrite count_votes_cons. destruct (decide (candidate v = k)) as [Hk|Hk].
  - rewrite filter_cons_False by (by intros ?).
    rewrite decide_False by congruence. done.
  - rewrite filter_cons_True by done. by rewrite count_votes_cons, IH.
Qed.

Lemma length_split_candidate k vs :
  length vs = count_votes k vs + length (filter (λ v, candidate v ≠ k) vs).
Proof.
  induction vs as [|v vs IH]; [done|].
  rewrite count_votes_cons. destruct (decide (candidate v = k)) as [Hk|Hk].
  - rewrite filter_cons_False by (by intros ?). simpl. lia.
  - rewrite filter_cons_True by done. simpl. lia.
Qed.

(** A dictionary that counts the votes of its keys and has every voted
    candidate among its keys sums to the number of votes. *)
Lemma sum_values_counts m : ∀ vs,
  (∀ c n, m !! c = Some n → n = count_votes c vs) →
  (∀ v, v ∈ vs → is_Some (m !! candidate v)) →
  sum_values m = length vs.
Proof.
  induction m as [|k n m Hk IH] using map_ind; intros vs Hcount Hcover.
  - rewrite sum_values_empty. destruct vs as [|v vs]; [done|].
    destruct (Hcover v) as [? Hv]; [by left|]. by rewrite lookup_empty in Hv.
  - rewrite sum_values_insert by done.
    rewrite (IH (filter (λ v, candidate v ≠ k) vs)).
    + rewrite (length_split_candidate k vs). f_equal.
      apply Hcount. apply lookup_insert_eq.
    + intros c n' Hc. assert (c ≠ k) by (intros ->; congruence).
      rewrite count_votes_others by done.
      apply Hcount. by rewrite lookup_insert_ne.
    + intros v [Hv Hin]%list_elem_of_filter.
      destruct (Hcover v Hin) as [x Hx].
      rewrite lookup_insert_ne in Hx by done. eauto.
Qed.

Lemma sum_values_get_vote_results db :
  sum_values (get_vote_results db) = length (votes db).
Proof.
  apply sum_values_counts.
  - intros c n. rewrite get_vote_results_lookup.
    destruct (decide (c ∈ _)) as [|Hnin]; [congruence|].
    destruct (decide _); [|done].
    intros [= <-]. by rewrite count_votes_absent.
  - intros v Hv. rewrite get_vote_results_lookup.
    rewrite decide_True; [eauto|]. by apply list_elem_of_fmap_2.
Qed.

End total.

(** ** Winner resolution *)

Section winner.
Implicit Types (db : database) (ss : session_state) (now : Z).

Lemma current_leader_spec db :
  current_leader db =
    if decide (votes db = []) then None else Some (leading (get_vote_results db)).
Proof.
  unfold current_leader. rewrite sum_values_get_vote_results.
  destruct (votes db); by simpl.
Qed.

Lemma leading_spec db :
  let messi := count_votes "Messi" (votes db) in
  let ronaldo := count_votes "Ronaldo" (votes db) in
  leading (get_vote_results db) =
    if decide (ronaldo < messi) then "Messi"
    else if decide (messi < ronaldo) then "Ronaldo"
    else "Tie".
Proof.
  cbn zeta. unfold leading.
  rewrite !votes_for_both by (by left + by right).
  destruct (Nat.ltb_spec (count_votes "Ronaldo" (votes db))
                         (count_votes "Messi" (votes db))).
  { by rewrite decide_True. }
  rewrite decide_False by lia.
  destruct (Nat.ltb_spec (count_votes "Messi" (votes db))
                         (count_votes "Ronaldo" (votes db))).
  { by rewrite decide_True. }
  by rewrite decide_False by lia.
Qed.

(** When the automatic declaration fires. *)
Lemma auto_declare_fires db ss now ss' :
  auto_declare_winner_if_time_ended db ss now = (true, ss') →
  (∃ s, get_voting_settings db = Some s ∧ auto_declare_winner s = true)
  ∧ status (get_voting_time_status db now) = ended
  ∧ winner_declared ss = false
  ∧ auto_declaration_processed ss = false
  ∧ votes db ≠ []
  ∧ ss' = set_auto_declaration_processed true
            (set_declaration true (Some (leading (get_vote_results db))) true ss).
Proof.
  unfold auto_declare_winner_if_time_ended.
  rewrite sum_values_get_vote_results.
  destruct (get_voting_settings db) as [s|]; [|done].
  destruct (auto_declare_winner s) eqn:Ha; [|done]. simpl.
  case_bool_decide as Hst; [|done].
  destruct (winner_declared ss); [done|].
  destruct (auto_declaration_processed ss); [done|]. simpl.
  destruct (votes db) eqn:Hv; [done|]. simpl.
  intros [= <-]. eauto 10.
Qed.

(** A call that does not fire leaves the session as it was. *)
Lemma auto_declare_idle db ss now ss' :
  auto_declare_winner_if_time_ended db ss now = (false, ss') → ss' = ss.
Proof.
  unfold auto_declare_winner_if_time_ended.
  repeat case_match; congruence.
Qed.

(** While the marker is set, or a winner stands declared, nothing fires. *)
Lemma auto_declare_blocked db ss now :
  auto_declaration_processed ss = true ∨ winner_declared ss = true →
  auto_declare_winner_if_time_ended db ss now = (false, ss).
Proof.
  intros Hblock.
  destruct (auto_declare_winner_if_time_ended db ss now) as [[] ss'] eqn:E.
  - apply auto_declare_fires in E as (_ & _ & Hw & Hp & _).
    destruct Hblock; congruence.
  - by rewrite (auto_declare_idle _ _ _ _ E).
Qed.

(** A call that fires sets the marker, so the next one does not. *)
Lemma auto_declare_once db ss now ss' db' now' :
  auto_declare_winner_if_time_ended db ss now = (true, ss') →
  auto_declaration_processed ss' = true
  ∧ auto_declare_winner_if_time_ended db' ss' now' = (false, ss').
Proof.
  intros (_ & _ & _ & _ & _ & ->)%auto_declare_fires.
  split; [done|]. apply auto_declare_blocked. by left.
Qed.

(** The schedule form and the quick presets clear the marker, and only the
    marker. *)
Lemma new_schedule_clears_marker db ss now b db' ss' out :
  admin_logged_in ss = true →
  (∃ start finish auto, b = Set_schedule start finish auto) ∨ (∃ m, b = Quick_preset m) →
  show_admin_panel b db ss now = (out, db', ss') →
  out = Rerun →
  ss' = set_auto_declaration_processed false ss.
Proof.
  intros Hadmin Hb. unfold show_admin_panel. rewrite Hadmin. simpl.
  destruct Hb as [(start & finish & auto & ->)|(m & ->)]; simpl.
  - repeat case_match; intros [= <- <- <-]; done.
  - intros [= <- <- <-]; done.
Qed.

End winner.

(** C4, as the claim has it, fails on a store without votes: the two counts
    are equal, both zero, and no winner is resolved, neither by the
    "Declare Winner" tab nor by the automatic declaration after the end of
    the window. *)
Lemma no_votes_no_tie :
  let db :=
    (set_voting_time (Some 100%Z) (Some 200%Z) true (empty_database false) 50%Z).2 in
  votes_for "Messi" (get_vote_results db) = 0
  ∧ votes_for "Ronaldo" (get_vote_results db) = 0
  ∧ status (get_voting_time_status db 300%Z) = ended
  ∧ current_leader db = None
  ∧ current_leader db ≠ Some "Tie"
  ∧ auto_declare_winner_if_time_ended db initial_session 300%Z
    = (false, initial_session).
Proof. by vm_compute. Qed.

(** C4, amended. Once at least one vote is cast, the candidate with the
    strictly greater count is the one resolved, and equal counts resolve to
    "Tie"; with no vote cast nothing is resolved.  The automatic
    declaration, when it fires, declares that same result. *)
Theorem winner_resolution (db : database) :
  let messi := count_votes "Messi" (votes db) in
  let ronaldo := count_votes "Ronaldo" (votes db) in
  (votes db ≠ [] →
     (ronaldo < messi → current_leader db = Some "Messi")
     ∧ (messi < ronaldo → current_leader db = Some "Ronaldo")
     ∧ (messi = ronaldo → current_leader db = Some "Tie"))
  ∧ (votes db = [] → current_leader db = None)
  ∧ (∀ ss now ss',
       auto_declare_winner_if_time_ended db ss now = (true, ss') →
       votes db ≠ [] ∧ declared_winner ss' = current_leader db).
Proof.
  cbn zeta. rewrite current_leader_spec, leading_spec. cbn zeta.
  split; [|split].
  - intros Hv. rewrite decide_False by done.
    repeat split; intros; repeat case_decide; done || lia.
  - intros ->. done.
  - intros ss now ss' (_ & _ & _ & _ & Hv & ->)%auto_declare_fires.
    split; [done|]. rewrite decide_False by done. simpl.
    by rewrite leading_spec.
Qed.

(** One vote each: a tie with votes cast. *)
Lemma winner_resolution_witness :
  let db0 := (register_student "s1" "a" (empty_database true) 0).2 in
  let db1 := (register_student "s2" "b" db0 0).2 in
  let db2 := (cast_vote "s1" "Messi" db1 1).2 in
  let db3 := (cast_vote "s2" "Ronaldo" db2 2).2 in
  current_leader db3 = Some "Tie"
  ∧ current_leader db2 = Some "Messi"
  ∧ current_leader db1 = None.
Proof.
  cbn zeta. split; [|split].
  - apply winner_resolution; by vm_compute.
  - apply winner_resolution; [by vm_compute|]. vm_compute. lia.
  - apply winner_resolution. by vm_compute.
Defined.

(** ** Automatic declaration and a new schedule *)

(** C5. One administrator (session 0) and three students.  The window is
    100 to 200 with automatic declaration; "S1" votes Messi at 150.  The run
    of the panel at 300 fires the declaration: Messi, marker set.  At 350
    the administrator sets a new window, 400 to 500: the marker is cleared.
    "S2" and "S3" vote Ronaldo at 450.  At 600 the new window has ended,
    automatic declaration is on, the marker is unset, Ronaldo leads, and
    nothing fires: Messi stands declared, because [winner_declared] was not
    cleared with the marker. *)
Theorem auto_declaration_does_not_fire_for_new_window :
  let sv0 := Server first_election first_sessions in
  let first_window :=
    [ (1, vote_request (press_vote true false), 150%Z);
      (0, panel_request No_button, 300%Z) ] in
  let new_schedule := [ (0, panel_request (Set_schedule 400 500 true), 350%Z) ] in
  let second_window :=
    [ (2, vote_request (press_vote false true), 450%Z);
      (3, vote_request (press_vote false true), 450%Z);
      (0, panel_request No_button, 600%Z) ] in
  let sv1 := serve_all first_window sv0 in
  let sv2 := serve_all new_schedule sv1 in
  let sv3 := serve_all second_window sv2 in
  let admin_at (sv : server) := default initial_session (sessions sv !! 0) in
  (declared_winner (admin_at sv1) = Some "Messi"
   ∧ auto_declared (admin_at sv1) = true
   ∧ auto_declaration_processed (admin_at sv1) = true)
  ∧ (auto_declaration_processed (admin_at sv2) = false
     ∧ winner_declared (admin_at sv2) = true
     ∧ (start_time <$> get_voting_settings (store sv2)) = Some (Some 400%Z)
     ∧ (auto_declare_winner <$> get_voting_settings (store sv2)) = Some true)
  ∧ (status (get_voting_time_status (store sv3) 600) = ended
     ∧ get_vote_results (store sv3) = <["Messi" := 1]> (<["Ronaldo" := 2]> ∅)
     ∧ current_leader (store sv3) = Some "Ronaldo"
     ∧ auto_declaration_processed (admin_at sv3) = false
     ∧ declared_winner (admin_at sv3) = Some "Messi"
     ∧ auto_declare_winner_if_time_ended (store sv3) (admin_at sv3) 600
       = (false, admin_at sv3)).
Proof. by vm_compute. Qed.

(** ** The ballot *)

Section ballot.
Implicit Types (db : database) (ss : session_state) (now : Z) (rn c : string).

Lemma has_student_voted_spec rn db :
  has_student_voted rn db = true ↔ normalize rn ∈ register_number <$> votes db.
Proof.
  unfold has_student_voted, normalize, voted_by.
  rewrite existsb_exists, list_elem_of_fmap.
  split.
  - intros (v & Hin & Hv). apply bool_decide_eq_true in Hv.
    exists v. split; [done|]. by apply list_elem_of_In.
  - intros (v & Hv & Hin). exists v. split; [by apply list_elem_of_In|].
    by apply bool_decide_eq_true.
Qed.

Lemma has_student_voted_false rn db :
  has_student_voted rn db = false ↔ normalize rn ∉ register_number <$> votes db.
Proof.
  rewrite <- has_student_voted_spec. by destruct (has_student_voted rn db).
Qed.

(** [cast_vote] as the insertion it is. *)
Lemma cast_vote_spec rn c db now :
  cast_vote rn c db now =
    if foreign_keys db && negb (is_student_registered rn db) then (false, db)
    else (true,
          with_votes (votes db ++ [Vote (S (votes_seq db)) (normalize rn) c now])
                     (S (votes_seq db)) db).
Proof. done. Qed.

Lemma cast_vote_accepted rn c db now db' :
  cast_vote rn c db now = (true, db') →
  votes db' = (votes db ++ [Vote (S (votes_seq db)) (normalize rn) c now])%list
  ∧ students db' = students db
  ∧ voting_settings db' = voting_settings db
  ∧ foreign_keys db' = foreign_keys db.
Proof.
  rewrite cast_vote_spec. destruct (_ && _); [done|]. by intros [= <-].
Qed.

Lemma cast_vote_refused rn c db now db' :
  cast_vote rn c db now = (false, db') → db' = db.
Proof.
  rewrite cast_vote_spec. destruct (_ && _); [|done]. by intros [= <-].
Qed.

(** Nothing in [cast_vote] looks at the votes already there or at the
    schedule: a registered student is never refused. *)
Lemma cast_vote_registered rn c db now :
  is_student_registered rn db = true → (cast_vote rn c db now).1 = true.
Proof.
  intros Hreg. rewrite cast_vote_spec, Hreg.
  by rewrite andb_false_r.
Qed.

(** Without the foreign key, nobody is. *)
Lemma cast_vote_unchecked rn c db now :
  foreign_keys db = false → (cast_vote rn c db now).1 = true.
Proof. intros Hfk. by rewrite cast_vote_spec, Hfk. Qed.

Lemma cast_vote_one_vote_each rn c db now db' :
  has_student_voted rn db = false →
  cast_vote rn c db now = (true, db') →
  one_vote_each db → one_vote_each db'.
Proof.
  intros Hnot (Hv & _)%cast_vote_accepted. unfold one_vote_each.
  rewrite Hv, fmap_app. simpl. intros Hnd.
  apply NoDup_app. split; [done|]. split.
  - intros x Hx ->%list_elem_of_singleton.
    by apply has_student_voted_false in Hnot.
  - apply NoDup_singleton.
Qed.

(** What a run of the voting page can do to the store: nothing, or one
    vote, cast for the student of the session, who had none, while voting
    was allowed. *)
Lemma show_voting_page_store w db ss now :
  (show_voting_page w db ss now).1.2 = db
  ∨ ∃ student c,
      student_logged_in ss = true
      ∧ current_student ss = Some student
      ∧ has_student_voted student db = false
      ∧ can_vote (get_voting_time_status db now) = true
      ∧ cast_vote student c db now = (true, (show_voting_page w db ss now).1.2).
Proof.
  unfold show_voting_page.
  destruct (vote_back_to_home w); [by left|].
  destruct (status (get_voting_time_status db now)) eqn:Hst; try (by left).
  all: destruct (student_logged_in ss) eqn:Hlog; simpl;
    [|by repeat case_match; left].
  all: destruct (current_student ss) as [student|] eqn:Hcur; [|by left].
  all: destruct (has_student_voted student db) eqn:Hvoted;
    [by destruct (logout w); left|].
  all: destruct (can_vote (get_voting_time_status db now)) eqn:Hcan; [|by left].
  all: destruct (messi_vote w).
  all: try (destruct (cast_vote student "Messi" db now) as [[] db1] eqn:Hm;
            [right; by exists student, "Messi"|];
            apply cast_vote_refused in Hm as ->).
  all: destruct (ronaldo_vote w); [|by left].
  all: destruct (cast_vote student "Ronaldo" db now) as [[] db2] eqn:Hr;
    [right; by exists student, "Ronaldo"|];
    apply cast_vote_refused in Hr as ->; by left.
Qed.

End ballot.

(** ** What a run of the script can do to the store *)

Section runs.
Implicit Types (db : database) (ss : session_state) (now : Z) (r : request).

Lemma show_home_page_store w db ss now : (show_home_page w db ss now).1.2 = db.
Proof. unfold show_home_page. by repeat case_match. Qed.

Lemma show_admin_login_store w db ss : (show_admin_login w db ss).1.2 = db.
Proof. unfold show_admin_login. by repeat case_match. Qed.

Lemma show_signup_page_store w db ss now :
  (show_signup_page w db ss now).1.2 = db
  ∨ ∃ rn nm, students db !! normalize rn = None
      ∧ (show_signup_page w db ss now).1.2
        = with_students (<[normalize rn := Student nm now]> (students db)) db.
Proof.
  destruct (form_submitted_dec w ss) as [Hsub|Hidle].
  - rewrite (show_signup_page_submitted w db ss now Hsub). cbn zeta.
    repeat case_match; try (by left).
    right. exists (signup_register_number w). by eexists.
  - left. by apply show_signup_page_idle.
Qed.

(** The panel empties tables or replaces the schedule; it inserts
    neither a student nor a vote. *)
Lemma show_admin_panel_store b db ss now :
  let db' := (show_admin_panel b db ss now).1.2 in
  (students db' = students db ∨ students db' = ∅)
  ∧ (votes db' = votes db ∨ votes db' = []).
Proof.
  cbn zeta. unfold show_admin_panel.
  destruct (admin_logged_in ss); simpl; [|by split; left].
  destruct b; simpl; repeat case_match; simpl; simplify_eq; auto.
Qed.

Lemma main_one_vote_each r db ss now :
  one_vote_each db → one_vote_each (main r db ss now).1.2.
Proof.
  intros Hinv. unfold main.
  set (ss0 := init_session_state db ss now). destruct (page ss0).
  - by rewrite show_home_page_store.
  - destruct (show_signup_page_store (on_signup r) db ss0 now)
      as [->|(rn & nm & _ & ->)]; done.
  - destruct (show_voting_page_store (on_vote r) db ss0 now)
      as [->|(student & c & _ & _ & Hnot & _ & Hcast)]; [done|].
    by eapply cast_vote_one_vote_each.
  - by rewrite show_admin_login_store.
  - destruct (show_admin_panel_store (on_admin_panel r) db ss0 now) as [_ [Hv|Hv]];
      unfold one_vote_each; rewrite Hv; [done|apply NoDup_nil_2].
Qed.

Lemma main_keys_normalized r db ss now :
  keys_normalized db → keys_normalized (main r db ss now).1.2.
Proof.
  intros Hinv. unfold main.
  set (ss0 := init_session_state db ss now). destruct (page ss0).
  - by rewrite show_home_page_store.
  - destruct (show_signup_page_store (on_signup r) db ss0 now)
      as [->|(rn & nm & _ & ->)]; [done|].
    intros k. simpl. destruct (decide (k = normalize rn)) as [->|Hne].
    + intros _. apply normalize_idemp.
    + rewrite lookup_insert_ne by done. apply Hinv.
  - destruct (show_voting_page_store (on_vote r) db ss0 now)
      as [->|(student & c & _ & _ & _ & _ & Hcast)]; [done|].
    apply cast_vote_accepted in Hcast as (_ & Hst & _).
    unfold keys_normalized. by rewrite Hst.
  - by rewrite show_admin_login_store.
  - destruct (show_admin_panel_store (on_admin_panel r) db ss0 now) as [[Hs|Hs] _];
      unfold keys_normalized; rewrite Hs; [done|].
    intros k [? Hk]. by rewrite lookup_empty in Hk.
Qed.

Lemma serve_store sid r now sv :
  store (serve sid r now sv)
  = (main r (store sv) (default initial_session (sessions sv !! sid)) now).1.2.
Proof. unfold serve. by destruct (main _ _ _ _) as [[? ?] ?]. Qed.

Lemma serve_all_invariant (P : database → Prop) :
  (∀ r db ss now, P db → P (main r db ss now).1.2) →
  ∀ rs sv, P (store sv) → P (store (serve_all rs sv)).
Proof.
  intros Hstep rs. induction rs as [|[[sid r] now] rs IH]; intros sv HP; [done|].
  simpl. apply IH. rewrite serve_store. by apply Hstep.
Qed.

End runs.

(** ** Normalized register numbers *)

Section variants.
Import Text.

Lemma same_letter_upper a b :
  same_letter a b = true → upper_char a = upper_char b.
Proof.
  unfold same_letter. intros [H|H]%orb_true_iff.
  - apply bool_decide_eq_true in H. by subst.
  - apply andb_true_iff in H as [H Hm]. apply andb_true_iff in H as [Ha Hb].
    revert Ha Hb Hm.
    destruct a as [[] [] [] [] [] [] [] []]; (intros Ha; try discriminate Ha);
      clear Ha; destruct b as [[] [] [] [] [] [] [] []];
      (intros Hb; try discriminate Hb); clear Hb;
      (intros Hm; try discriminate Hm); reflexivity.
Qed.

Lemma same_text_upper c k : same_text c k = true → upper c = upper k.
Proof.
  revert k. induction c as [|a c IH]; intros [|b k]; simpl; try done.
  intros [Hab Hck]%andb_true_iff.
  by rewrite (same_letter_upper a b Hab), (IH k Hck).
Qed.

(** An ASCII variant of a text normalizes as the text does. *)
Lemma normalize_ascii_variant (k v : string) :
  ascii_variant k v → normalize v = normalize k.
Proof.
  intros (l & c & r & -> & Hl & Hr & Hc).
  apply normalize_variant; [done..|]. by apply same_text_upper.
Qed.

End variants.

(** C9, as the claim has it, fails outside ASCII.  The register number
    made of the Kelvin sign and "12" is stored as it is, the Kelvin sign
    being an upper-case letter already, and is found under that text; but
    it is not found under "k12", its lower-case form, which normalizes to
    "K12" with the ASCII letter, nor under "K12". *)
Lemma kelvin_sign_not_found :
  let stored := kelvin_sign +:+ "12" in
  let db := (register_student stored "ann" (empty_database false) 0).2 in
  normalize stored = stored
  ∧ students db = <[stored := Student "Ann" 0]> ∅
  ∧ is_student_registered stored db = true
  ∧ normalize "k12" = "K12"
  ∧ is_student_registered "k12" db = false
  ∧ is_student_registered "K12" db = false.
Proof. by vm_compute. Qed.

(** C9, amended.  [register_student] stores the student under the register
    number trimmed and upper-cased, and each lookup normalizes its argument
    the same way before it looks at the store, so that the answer is that of
    the normalized key: [is_student_registered] says whether it is a key of
    [students], [has_student_voted] whether a vote carries it, and
    [cast_vote] records the vote under it.  After a registration the
    register numbers found are those that normalize to the new key and those
    found before.  For register numbers written in ASCII, a variant in
    letter case and surrounding white space normalizes to the same key, so
    the student just registered is found under every such variant. *)
Theorem normalized_register_number :
  (∀ rn db,
     (is_student_registered rn db = true ↔ is_Some (students db !! normalize rn))
     ∧ (has_student_voted rn db = true
        ↔ ∃ v, v ∈ votes db ∧ register_number v = normalize rn))
  ∧ (∀ rn c db now db',
       cast_vote rn c db now = (true, db') →
       votes db' = (votes db ++ [Vote (S (votes_seq db)) (normalize rn) c now])%list)
  ∧ (∀ rn nm db now msg db',
       register_student rn nm db now = (true, msg, db') →
       students db' =
         <[normalize rn := Student (Text.title (Text.strip nm)) now]> (students db)
       ∧ ∀ v, is_student_registered v db' = true
              ↔ normalize v = normalize rn ∨ is_student_registered v db = true)
  ∧ (∀ k v,
       Text.is_ascii k = true → Text.is_ascii v = true →
       ascii_variant k v → normalize v = normalize k)
  ∧ (∀ rn nm db now msg db' v,
       Text.is_ascii rn = true → Text.is_ascii v = true →
       register_student rn nm db now = (true, msg, db') →
       ascii_variant (normalize rn) v →
       is_student_registered v db' = true).
Proof.
  split; [|split; [|split; [|split]]].
  - intros rn db. split; [apply is_student_registered_spec|].
    rewrite has_student_voted_spec, list_elem_of_fmap.
    split; intros (v & ? & ?); by exists v.
  - intros rn c db now db' Hcast. by apply cast_vote_accepted in Hcast as (-> & _).
  - intros rn nm db now msg db' [Hfresh ->]%register_student_success.
    split; [done|]. intros v. rewrite !is_student_registered_spec. simpl.
    destruct (decide (normalize v = normalize rn)) as [->|Hne].
    + rewrite lookup_insert_eq. split; eauto.
    + rewrite lookup_insert_ne by done. split; [auto|]. by intros [?|?].
  - intros k v _ _. apply normalize_ascii_variant.
  - intros rn nm db now msg db' v _ _ [Hfresh ->]%register_student_success Hv.
    apply is_student_registered_spec. simpl.
    rewrite (normalize_ascii_variant _ _ Hv), normalize_idemp, lookup_insert_eq.
    eauto.
Qed.

(** Registering "  ab12  " stores the key "AB12", under which "ab12" and
    " Ab12" are found and "ab13" is not. *)
Lemma normalized_register_number_witness :
  let db' := (register_student "  ab12  " "ann lee" (empty_database false) 7).2 in
  students db' = <["AB12" := Student "Ann Lee" 7]> ∅
  ∧ is_student_registered "ab12" db' = true
  ∧ is_student_registered " Ab12" db' = true
  ∧ is_student_registered "ab13" db' = false
  ∧ has_student_voted "ab12" db' = false.
Proof.
  destruct normalized_register_number as (Hlook & _ & Hreg & _ & Hfound).
  destruct (Hreg "  ab12  " "ann lee" (empty_database false) 7%Z
                 "Registration successful!"
                 (register_student "  ab12  " "ann lee" (empty_database false) 7).2
                 eq_refl) as [Hkey Hiff].
  split; [exact Hkey|]. split; [|split; [|split]].
  - apply (Hfound "  ab12  " "ann lee" (empty_database false) 7%Z
                  "Registration successful!" _ "ab12" eq_refl eq_refl eq_refl).
    by exists "", "ab12", "".
  - apply (Hfound "  ab12  " "ann lee" (empty_database false) 7%Z
                  "Registration successful!" _ " Ab12" eq_refl eq_refl eq_refl).
    by exists " ", "Ab12", "".
  - apply not_true_is_false. intros Hyes.
    apply Hiff in Hyes as [Hsame|Hbefore]; [by vm_compute in Hsame|].
    by vm_compute in Hbefore.
  - apply not_true_is_false. intros Hyes.
    apply (Hlook "ab12") in Hyes as (v & Hv & _). by apply elem_of_nil in Hv.
Defined.

(** ** One vote per student *)

(** C1, as the claim has it, fails: "AB12" is registered and has voted, and
    a second [cast_vote] for the same student, on a connection that
    enforces the foreign key, returns [True] and leaves two votes for
    "AB12". *)
Lemma cast_vote_records_second_vote :
  let db0 := (register_student "ab12" "ann" (empty_database true) 0).2 in
  let db1 := (cast_vote "ab12" "Messi" db0 1).2 in
  let second := cast_vote " ab12 " "Ronaldo" db1 2 in
  has_student_voted " ab12 " db1 = true
  ∧ second.1 = true
  ∧ register_number <$> votes second.2 = ["AB12"; "AB12"]
  ∧ ¬ one_vote_each second.2.
Proof.
  cbn zeta. split; [by vm_compute|]. split; [by vm_compute|].
  split; [by vm_compute|].
  unfold one_vote_each.
  change (register_number <$> votes _) with ["AB12"; "AB12"].
  intros Hnd. apply NoDup_cons in Hnd as [Hnin _].
  apply Hnin. by left.
Qed.

(** C1, amended. [cast_vote] does not look for an earlier vote; the rule
    of one vote per student is kept by the voting page, which calls
    [cast_vote] only after [has_student_voted] has answered no.  A run of
    the page for a student who has a vote leaves the store as it is, and
    requests served one after the other, whatever they are and from
    whatever sessions, never take a store with at most one vote per
    register number to a store with two. *)
Theorem one_vote_per_student :
  (∀ w db ss now student,
     current_student ss = Some student →
     has_student_voted student db = true →
     (show_voting_page w db ss now).1.2 = db)
  ∧ (∀ rs sv, one_vote_each (store sv) → one_vote_each (store (serve_all rs sv))).
Proof.
  split.
  - intros w db ss now student Hcur Hvoted.
    destruct (show_voting_page_store w db ss now)
      as [|(student' & c & _ & Hcur' & Hnot & _)]; [done|].
    congruence.
  - apply serve_all_invariant. intros. by apply main_one_vote_each.
Qed.

(** "AB12" presses "Vote for Messi" twice, then "Vote for Ronaldo", while
    voting is open: the first request casts the vote, the two others find
    the student has voted and change nothing. *)
Lemma one_vote_per_student_witness :
  let db0 :=
    (set_voting_time (Some 10%Z) None false
       (register_student "ab12" "ann" (empty_database false) 0).2 10).2 in
  let sv := Server db0 {[ 1 := voter_session "AB12" ]} in
  let rs := [ (1, vote_request (press_vote true false), 20%Z);
              (1, vote_request (press_vote true false), 30%Z);
              (1, vote_request (press_vote false true), 40%Z) ] in
  let db1 := store (serve_all [(1, vote_request (press_vote true false), 20%Z)] sv) in
  (show_voting_page (press_vote false true) db1 (voter_session "AB12") 40).1.2 = db1
  ∧ one_vote_each (store (serve_all rs sv))
  ∧ (candidate <$> votes (store (serve_all rs sv))) = ["Messi"].
Proof.
  cbn zeta. destruct one_vote_per_student as [Hpage Hruns].
  split; [|split].
  - apply (Hpage _ _ _ _ "AB12"); by vm_compute.
  - apply Hruns. apply NoDup_nil_2.
  - by vm_compute.
Defined.

(** ** The voting window at the time of the vote *)

(** C2, as the claim has it, fails: the window from 100 to 200 has ended at
    300 and [cast_vote] still records the vote of a registered student; it
    reports [True] or [False] and consults neither the schedule nor, unless
    the connection enforces the foreign key, the table of students. *)
Lemma cast_vote_ignores_window :
  let db0 :=
    (set_voting_time (Some 100%Z) (Some 200%Z) true
       (register_student "ab12" "ann" (empty_database true) 0).2 50).2 in
  let late := cast_vote "ab12" "Messi" db0 300 in
  status (get_voting_time_status db0 300) = ended
  ∧ can_vote (get_voting_time_status db0 300) = false
  ∧ is_voting_active db0 300 = false
  ∧ late.1 = true
  ∧ votes late.2 = [Vote 1 "AB12" "Messi" 300].
Proof. by vm_compute. Qed.

(** C2, amended. [cast_vote] checks neither the window nor anything else
    of its own; the window is checked again on every run of the voting
    page: when [get_voting_time_status] does not allow voting at the time of
    the run, the run leaves the store as it is, whatever button is pressed.
    The page logs a student in for voting only if the register number is
    registered and has no vote at that moment. *)
Theorem voting_page_checks_window (w : vote_widgets) (db : database)
    (ss : session_state) (now : Z) :
  (can_vote (get_voting_time_status db now) = false →
   (show_voting_page w db ss now).1.2 = db)
  ∧ (student_logged_in ss = false →
     student_logged_in (show_voting_page w db ss now).2 = true →
     ∃ rn, current_student (show_voting_page w db ss now).2 = Some rn
           ∧ rn = normalize (vote_register_number w)
           ∧ is_student_registered rn db = true
           ∧ has_student_voted rn db = false).
Proof.
  split.
  - intros Hclosed.
    destruct (show_voting_page_store w db ss now)
      as [|(student & c & _ & _ & _ & Hcan & _)]; [done|].
    congruence.
  - intros Hout. unfold show_voting_page. rewrite Hout. simpl.
    fold (normalize (vote_register_number w)).
    repeat case_match; simpl; intros Hin; try congruence.
    all: eauto.
Qed.

(** After the end of the window the vote button does nothing; before a
    student is logged in, "Verify and Vote" checks the register number. *)
Lemma voting_page_checks_window_witness :
  let db0 :=
    (set_voting_time (Some 100%Z) (Some 200%Z) true
       (register_student "ab12" "ann" (empty_database true) 0).2 50).2 in
  let verify := VoteWidgets false " ab12" true false false false in
  (show_voting_page (press_vote true false) db0 (voter_session "AB12") 300).1.2 = db0
  ∧ ∃ rn, current_student (show_voting_page verify db0 initial_session 150).2 = Some rn
          ∧ rn = normalize (vote_register_number verify)
          ∧ is_student_registered rn db0 = true
          ∧ has_student_voted rn db0 = false.
Proof.
  cbn zeta. split.
  - apply voting_page_checks_window. by vm_compute.
  - apply voting_page_checks_window; by vm_compute.
Defined.

(** * Further properties of the program *)

(** ** The tally and the votes *)

Lemma get_vote_results_keys (db : database) (c : string) :
  is_Some (get_vote_results db !! c)
  ↔ c = "Messi" ∨ c = "Ronaldo" ∨ c ∈ candidate <$> votes db.
Proof.
  rewrite get_vote_results_lookup.
  destruct (decide (c ∈ _)) as [Hin|Hnin].
  { split; [auto|eauto]. }
  destruct (decide (c = "Messi" ∨ c = "Ronaldo")) as [Hc|Hc].
  { split; [|eauto]. intros _. destruct Hc; auto. }
  split; [by intros [? ?]|]. intros [?|[?|?]]; [destruct Hc; auto..|done].
Qed.

Lemma get_vote_results_value (db : database) (c : string) (n : nat) :
  get_vote_results db !! c = Some n → n = count_votes c (votes db).
Proof.
  rewrite get_vote_results_lookup.
  destruct (decide (c ∈ _)) as [Hin|Hnin]; [congruence|].
  destruct (decide _); [|done]. intros [= <-]. by rewrite count_votes_absent.
Qed.

(** The values of the tally add up to the number of rows of [votes], the
    keys of the tally are the two candidates and whoever else has a vote,
    and the entry of a key is the number of its votes. *)
Theorem tally_total_is_vote_count (db : database) :
  sum_values (get_vote_results db) = get_total_votes db
  ∧ (∀ c, is_Some (get_vote_results db !! c)
          ↔ c = "Messi" ∨ c = "Ronaldo" ∨ c ∈ candidate <$> votes db)
  ∧ (∀ c n, get_vote_results db !! c = Some n → n = count_votes c (votes db)).
Proof.
  split; [apply sum_values_get_vote_results|]. split.
  - apply get_vote_results_keys.
  - apply get_vote_results_value.
Qed.

(** A vote that [cast_vote] accepts is seen by [has_student_voted] under
    any spelling that normalizes alike, adds one to the entry of its
    candidate and to the total, and leaves the other entries alone. *)
Theorem cast_vote_counts (rn c : string) (db db' : database) (now : Z) :
  cast_vote rn c db now = (true, db') →
  has_student_voted rn db' = true
  ∧ get_vote_results db' !! c = Some (S (count_votes c (votes db)))
  ∧ (∀ c', c' ≠ c → count_votes c' (votes db') = count_votes c' (votes db))
  ∧ (∀ c', c' ≠ c → is_Some (get_vote_results db !! c') →
           get_vote_results db' !! c' = get_vote_results db !! c')
  ∧ get_total_votes db' = S (get_total_votes db)
  ∧ (∀ rn', normalize rn' ≠ normalize rn →
            has_student_voted rn' db' = has_student_voted rn' db).
Proof.
  intros (Hv & _)%cast_vote_accepted.
  assert (Hcount : ∀ c', count_votes c' (votes db')
                         = count_votes c' (votes db) + if decide (c = c') then 1 else 0).
  { intros c'. unfold count_votes. rewrite Hv, filter_app, length_app. f_equal.
    simpl. destruct (decide (c = c')).
    - by rewrite filter_cons_True.
    - by rewrite filter_cons_False. }
  split; [|split; [|split; [|split; [|split]]]].
  - apply has_student_voted_spec. rewrite Hv, fmap_app.
    apply elem_of_app. right. by left.
  - rewrite get_vote_results_lookup.
    rewrite decide_True.
    + rewrite Hcount, decide_True by done. f_equal. lia.
    + rewrite Hv, fmap_app. apply elem_of_app. right. by left.
  - intros c' Hne. rewrite Hcount, decide_False by done. lia.
  - intros c' Hne [n Hn].
    destruct (get_vote_results db' !! c') as [n'|] eqn:Hn'.
    + rewrite Hn. f_equal.
      rewrite (get_vote_results_value _ _ _ Hn'), (get_vote_results_value _ _ _ Hn).
      rewrite Hcount, decide_False by done. lia.
    + assert (is_Some (get_vote_results db' !! c')) as [? ?]; [|congruence].
      apply get_vote_results_keys.
      assert (Hk : is_Some (get_vote_results db !! c')) by eauto.
      apply get_vote_results_keys in Hk as [?|[?|Hin]]; auto.
      right; right. rewrite Hv, fmap_app. apply elem_of_app. by left.
  - unfold get_total_votes. rewrite Hv, length_app. simpl. lia.
  - intros rn' Hne.
    apply eq_true_iff_eq. rewrite !has_student_voted_spec, Hv, fmap_app.
    rewrite elem_of_app. simpl. rewrite list_elem_of_singleton. tauto.
Qed.

(** The first vote of "s1", for Messi. *)
Lemma cast_vote_counts_witness :
  let db0 := (register_student "s1" "al" (empty_database true) 0).2 in
  let db1 := (cast_vote "s1" "Messi" db0 1).2 in
  has_student_voted "s1" db1 = true
  ∧ get_vote_results db1 !! "Messi" = Some 1
  ∧ get_total_votes db1 = 1.
Proof.
  cbn zeta.
  destruct (cast_vote_counts "s1" "Messi"
              (register_student "s1" "al" (empty_database true) 0).2
              (cast_vote "s1" "Messi"
                 (register_student "s1" "al" (empty_database true) 0).2 1).2
              1 eq_refl) as (Hvoted & Hmessi & _ & _ & Htotal & _).
  split; [exact Hvoted|]. split; [exact Hmessi|exact Htotal].
Defined.

(** ** Registration, seen from the store *)

(** A registration that succeeds adds exactly one student: the count goes
    up by one, the new student is found, whoever was registered stays
    registered with the same row, and the votes are untouched. *)
Theorem registration_adds_one_student (rn nm : string) (db db' : database)
    (now : Z) (msg : string) :
  register_student rn nm db now = (true, msg, db') →
  is_student_registered rn db = false
  ∧ is_student_registered rn db' = true
  ∧ get_student_count db' = S (get_student_count db)
  ∧ (∀ k st, students db !! k = Some st → students db' !! k = Some st)
  ∧ (∀ k, k ≠ normalize rn → students db' !! k = students db !! k)
  ∧ votes db' = votes db
  ∧ voting_settings db' = voting_settings db
  ∧ msg = "Registration successful!".
Proof.
  intros Hreg.
  assert (msg = "Registration successful!") as ->.
  { unfold register_student in Hreg. destruct (students db !! _); by simplify_eq. }
  apply register_student_success in Hreg as [Hfresh ->].
  repeat split; simpl.
  - apply not_true_is_false. rewrite is_student_registered_spec, Hfresh.
    by intros [? ?].
  - apply is_student_registered_spec. simpl. rewrite lookup_insert_eq. eauto.
  - unfold get_student_count. simpl. by apply map_size_insert_None.
  - intros k st Hk. rewrite lookup_insert_ne; [done|]. congruence.
  - intros k Hne. by rewrite lookup_insert_ne.
Qed.

Lemma registration_adds_one_student_witness :
  let db := (register_student "s1" "al" (empty_database true) 0).2 in
  let db' := (register_student " s2" "bo" db 1).2 in
  is_student_registered " s2" db' = true
  ∧ get_student_count db' = 2
  ∧ students db' !! "S1" = Some (Student "Al" 0).
Proof.
  cbn zeta.
  destruct (registration_adds_one_student " s2" "bo"
              (register_student "s1" "al" (empty_database true) 0).2
              (register_student " s2" "bo"
                 (register_student "s1" "al" (empty_database true) 0).2 1).2
              1 "Registration successful!" eq_refl)
    as (_ & Hnew & Hcount & Hold & _).
  split; [exact Hnew|]. split; [exact Hcount|].
  apply Hold. by vm_compute.
Defined.

(** ** Resetting *)

(** "Reset Election" on the panel of a logged-in administrator: when
    there is at least one vote the votes are emptied and the declaration is
    cleared, marker included, while the students and the schedule stay, so
    that nobody has voted any more and no leader is shown; when there is no
    vote the button is not drawn and nothing changes.  "Delete All
    Students" likewise empties students and votes when there is a student,
    and does nothing when there is none. *)
Theorem panel_resets (db : database) (ss : session_state) (now : Z) :
  admin_logged_in ss = true →
  (votes db ≠ [] →
     ∃ db',
       show_admin_panel Reset_election db ss now = (Rerun, db', clear_declaration ss)
       ∧ votes db' = [] ∧ students db' = students db
       ∧ voting_settings db' = voting_settings db
       ∧ (∀ rn, has_student_voted rn db' = false)
       ∧ current_leader db' = None
       ∧ winner_declared (clear_declaration ss) = false
       ∧ auto_declaration_processed (clear_declaration ss) = false)
  ∧ (votes db = [] → show_admin_panel Reset_election db ss now = (Returned, db, ss))
  ∧ (students db ≠ ∅ →
     ∃ db',
       show_admin_panel Delete_all_students db ss now
         = (Rerun, db', clear_declaration ss)
       ∧ votes db' = [] ∧ get_student_count db' = 0
       ∧ voting_settings db' = voting_settings db
       ∧ (∀ rn, is_student_registered rn db' = false))
  ∧ (students db = ∅ →
     show_admin_panel Delete_all_students db ss now = (Returned, db, ss)).
Proof.
  intros Hadmin. unfold show_admin_panel. rewrite Hadmin. cbn [negb].
  rewrite sum_values_get_vote_results.
  split; [|split; [|split]].
  - intros Hv. destruct (votes db) eqn:E; [done|]. simpl.
    eexists. split; [done|]. by repeat split.
  - by intros ->.
  - intros Hs. rewrite bool_decide_eq_false_2 by done. simpl.
    eexists. split; [done|]. by repeat split.
  - intros Hs. by rewrite bool_decide_eq_true_2.
Qed.

(** The panel of the administrator of [first_election], before and after
    a vote. *)
Lemma panel_resets_witness :
  let db1 := (cast_vote "s1" "Messi" first_election 150).2 in
  show_admin_panel Reset_election first_election admin_session 160
    = (Returned, first_election, admin_session)
  ∧ (∃ db', show_admin_panel Reset_election db1 admin_session 160
              = (Rerun, db', clear_declaration admin_session)
            ∧ votes db' = [])
  ∧ (∃ db', show_admin_panel Delete_all_students db1 admin_session 160
              = (Rerun, db', clear_declaration admin_session)
            ∧ get_student_count db' = 0)
  ∧ show_admin_panel Delete_all_students (empty_database true) admin_session 160
    = (Returned, empty_database true, admin_session).
Proof.
  cbn zeta. split; [|split; [|split]].
  - by apply (panel_resets first_election admin_session 160 eq_refl).
  - destruct (panel_resets (cast_vote "s1" "Messi" first_election 150).2
                admin_session 160 eq_refl) as (Hreset & _).
    destruct Hreset as (db' & Hrun & Hv & _); [by vm_compute|].
    exists db'. by split.
  - destruct (panel_resets (cast_vote "s1" "Messi" first_election 150).2
                admin_session 160 eq_refl) as (_ & _ & Hdel & _).
    destruct Hdel as (db' & Hrun & _ & Hc & _).
    { intros H. apply (f_equal size) in H. by vm_compute in H. }
    exists db'. by split.
  - by apply (panel_resets (empty_database true) admin_session 160 eq_refl).
Defined.

(** ** The window in time *)

Section window_in_time.
Local Open Scope Z_scope.
Implicit Types (db : database) (now : Z).

(** For a store that does not change, the times at which voting is allowed
    form an interval, and the status never moves backwards as time passes:
    once [ended] it stays [ended], and while [not_started] it was
    [not_started] at every earlier time. *)
Theorem voting_window_is_interval db (t1 t2 t3 : Z) :
  t1 ≤ t2 → t2 ≤ t3 →
  (can_vote (get_voting_time_status db t1) = true →
   can_vote (get_voting_time_status db t3) = true →
   can_vote (get_voting_time_status db t2) = true)
  ∧ (status (get_voting_time_status db t1) = ended →
     status (get_voting_time_status db t2) = ended)
  ∧ (status (get_voting_time_status db t2) = not_started →
     status (get_voting_time_status db t1) = not_started)
  ∧ (status (get_voting_time_status db t1) = active →
     status (get_voting_time_status db t2) = active
     ∨ status (get_voting_time_status db t2) = ended).
Proof.
  intros H12 H23. unfold get_voting_time_status.
  destruct (get_voting_settings db) as [s|]; [|by auto].
  destruct (voting_enabled s); simpl; [|by auto].
  destruct (start_time s) as [start|]; [|by auto].
  destruct (end_time s) as [finish|]; [|by auto].
  rewrite !Z.gtb_ltb.
  destruct (Z.ltb_spec t1 start), (Z.ltb_spec finish t1),
           (Z.ltb_spec t2 start), (Z.ltb_spec finish t2),
           (Z.ltb_spec t3 start), (Z.ltb_spec finish t3);
    simpl; repeat split; intros; try done; try lia; auto.
Qed.

Lemma voting_window_is_interval_witness :
  let db := first_election in
  can_vote (get_voting_time_status db 150) = true
  ∧ status (get_voting_time_status db 300) = ended.
Proof.
  cbn zeta. split.
  - apply (voting_window_is_interval first_election 100 150 200); by vm_compute.
  - apply (voting_window_is_interval first_election 201 300 300); by vm_compute.
Defined.

End window_in_time.

(** ** The schedule, from the panel *)

Section schedule.
Local Open Scope Z_scope.
Implicit Types (db : database) (ss : session_state) (now start finish : Z).

Lemma status_of_set_voting_time db start finish auto now t :
  get_voting_time_status
    (set_voting_time (Some start) (Some finish) auto db now).2 t
  = if t <? start then
      TimeStatus not_started (Voting_will_start_at start) false None (Some start) None
    else if t >? finish then
      TimeStatus ended (Voting_ended_at finish) false None None (Some finish)
    else
      TimeStatus active (Voting_is_active_until finish) true
                 (Some (finish - t)) None (Some finish).
Proof. done. Qed.

(** The "Set Schedule" form of a logged-in administrator accepts a window
    exactly when it ends after it starts and does not start in the past.
    An accepted window replaces the schedule, enabled, and clears the
    marker; voting is then allowed exactly from the start to the end, and
    at the time of acceptance the window has not ended.  A refused window
    changes neither the store nor the session. *)
Theorem set_schedule_form db ss now start finish (auto : bool) :
  admin_logged_in ss = true →
  let result := show_admin_panel (Set_schedule start finish auto) db ss now in
  (start < finish → now ≤ start →
     let db' :=
       with_voting_settings
         (Some (Settings 1 (Some start) (Some finish) true auto now now)) db in
     result = (Rerun, db', set_auto_declaration_processed false ss)
     ∧ (∀ t, can_vote (get_voting_time_status db' t) = true ↔ start ≤ t ≤ finish)
     ∧ status (get_voting_time_status db' now) ≠ ended
     ∧ (status (get_voting_time_status db' now) = active ↔ now = start))
  ∧ (finish ≤ start → result = (Error "End time must be after start time!", db, ss))
  ∧ (start < finish → start < now →
     result = (Error "Start time cannot be in the past!", db, ss)).
Proof.
  intros Hadmin. cbn zeta. unfold show_admin_panel. rewrite Hadmin. cbn [negb].
  split; [|split].
  - intros Hlt Hnow.
    destruct (Z.leb_spec finish start); [lia|].
    destruct (Z.ltb_spec start now); [lia|].
    split; [done|].
    change (with_voting_settings _ db)
      with (set_voting_time (Some start) (Some finish) auto db now).2.
    split; [|split].
    + intros t. rewrite status_of_set_voting_time, Z.gtb_ltb.
      destruct (Z.ltb_spec t start), (Z.ltb_spec finish t); simpl;
        split; intros; try done; lia.
    + rewrite status_of_set_voting_time, Z.gtb_ltb.
      destruct (Z.ltb_spec now start), (Z.ltb_spec finish now); simpl;
        try done; lia.
    + rewrite status_of_set_voting_time, Z.gtb_ltb.
      destruct (Z.ltb_spec now start), (Z.ltb_spec finish now); simpl;
        split; intros; try done; lia.
  - intros Hle. by destruct (Z.leb_spec finish start); [|lia].
  - intros Hlt Hpast.
    destruct (Z.leb_spec finish start); [lia|].
    by destruct (Z.ltb_spec start now); [|lia].
Qed.

Lemma set_schedule_form_witness :
  let db' :=
    with_voting_settings
      (Some (Settings 1 (Some 400) (Some 500) true true 350 350)) first_election in
  show_admin_panel (Set_schedule 400 500 true) first_election admin_session 350
    = (Rerun, db', set_auto_declaration_processed false admin_session)
  ∧ show_admin_panel (Set_schedule 500 400 true) first_election admin_session 350
    = (Error "End time must be after start time!", first_election, admin_session)
  ∧ show_admin_panel (Set_schedule 300 500 true) first_election admin_session 350
    = (Error "Start time cannot be in the past!", first_election, admin_session).
Proof.
  cbn zeta. split; [|split].
  - by apply (set_schedule_form first_election admin_session 350 400 500 true eq_refl).
  - by apply (set_schedule_form first_election admin_session 350 500 400 true eq_refl).
  - by apply (set_schedule_form first_election admin_session 350 300 500 true eq_refl).
Defined.



End schedule.

(** ** What a run does to the session *)

Section sessions.
Implicit Types (db : database) (ss : session_state) (now : Z) (r : request).

(** The automatic declaration touches the declaration and nothing else. *)
Lemma init_session_state_keeps db ss now :
  let ss0 := init_session_state db ss now in
  page ss0 = page ss
  ∧ admin_logged_in ss0 = admin_logged_in ss
  ∧ student_logged_in ss0 = student_logged_in ss
  ∧ current_student ss0 = current_student ss
  ∧ registration_success ss0 = registration_success ss.
Proof.
  cbn zeta. unfold init_session_state.
  destruct (auto_declare_winner_if_time_ended db ss now) as [[] ss'] eqn:E.
  - by apply auto_declare_fires in E as (_ & _ & _ & _ & _ & ->).
  - by apply auto_declare_idle in E as ->.
Qed.

Lemma init_session_state_consistent db ss now :
  declaration_consistent ss → declaration_consistent (init_session_state db ss now).
Proof.
  unfold init_session_state.
  destruct (auto_declare_winner_if_time_ended db ss now) as [[] ss'] eqn:E.
  - apply auto_declare_fires in E as (_ & _ & _ & _ & _ & ->).
    intros _. unfold declaration_consistent. simpl.
    split_and!; [done..|]. split; eauto.
  - by apply auto_declare_idle in E as ->.
Qed.

(** The voting page either leaves the store or casts one accepted vote,
    for Messi or for Ronaldo, for the student of the session. *)
Lemma show_voting_page_vote w db ss now :
  (show_voting_page w db ss now).1.2 = db
  ∨ ∃ student c,
      current_student ss = Some student
      ∧ (c = "Messi" ∨ c = "Ronaldo")
      ∧ cast_vote student c db now = (true, (show_voting_page w db ss now).1.2).
Proof.
  unfold show_voting_page.
  destruct (vote_back_to_home w); [by left|].
  destruct (status (get_voting_time_status db now)) eqn:Hst; try (by left).
  all: destruct (student_logged_in ss) eqn:Hlog; simpl;
    [|by repeat case_match; left].
  all: destruct (current_student ss) as [student|] eqn:Hcur; [|by left].
  all: destruct (has_student_voted student db) eqn:Hvoted;
    [by destruct (logout w); left|].
  all: destruct (can_vote (get_voting_time_status db now)) eqn:Hcan; [|by left].
  all: destruct (messi_vote w).
  all: try (destruct (cast_vote student "Messi" db now) as [[] db1] eqn:Hm;
            [right; exists student, "Messi"; by auto|];
            apply cast_vote_refused in Hm as ->).
  all: destruct (ronaldo_vote w); [|by left].
  all: destruct (cast_vote student "Ronaldo" db now) as [[] db2] eqn:Hr;
    [right; exists student, "Ronaldo"; by auto|];
    apply cast_vote_refused in Hr as ->; by left.
Qed.

(** A run outside the panel of a logged-in administrator keeps the
    schedule and the pragma, keeps every student and appends to the
    votes. *)
Lemma main_outside_panel r db ss now :
  let ss0 := init_session_state db ss now in
  (page ss0 = admin_panel ∧ admin_logged_in ss0 = true
   ∧ main r db ss now = show_admin_panel (on_admin_panel r) db ss0 now)
  ∨ (voting_settings (main r db ss now).1.2 = voting_settings db
     ∧ foreign_keys (main r db ss now).1.2 = foreign_keys db
     ∧ (∀ k st, students db !! k = Some st →
                students (main r db ss now).1.2 !! k = Some st)
     ∧ votes db `prefix_of` votes (main r db ss now).1.2).
Proof.
  cbn zeta. unfold main.
  set (ss0 := init_session_state db ss now). destruct (page ss0) eqn:Hpage.
  - right. by rewrite show_home_page_store.
  - right. destruct (show_signup_page_store (on_signup r) db ss0 now)
      as [->|(rn & nm & Hfresh & ->)]; [done|]. simpl.
    split_and!; try done.
    intros k st Hk. rewrite lookup_insert_ne; [done|]. congruence.
  - right. destruct (show_voting_page_store (on_vote r) db ss0 now)
      as [->|(student & c & _ & _ & _ & _ & Hcast)]; [done|].
    apply cast_vote_accepted in Hcast as (-> & -> & -> & ->).
    split_and!; try done. by apply prefix_app_r.
  - right. by rewrite show_admin_login_store.
  - destruct (admin_logged_in ss0) eqn:Hadmin; [by left|right].
    unfold show_admin_panel. by rewrite Hadmin.
Qed.

End sessions.

(** A session that is not logged in as administrator cannot touch the
    schedule, remove a student or remove a vote, whatever its request and
    whatever page it is on; and the only way for it to become an
    administrator session is the login form with the name "admin" and the
    password "admin123". *)
Theorem only_admin_changes_schedule (r : request) (db : database)
    (ss : session_state) (now : Z) :
  admin_logged_in ss = false →
  voting_settings (main r db ss now).1.2 = voting_settings db
  ∧ (∀ k st, students db !! k = Some st →
             students (main r db ss now).1.2 !! k = Some st)
  ∧ votes db `prefix_of` votes (main r db ss now).1.2
  ∧ (admin_logged_in (main r db ss now).2 = true →
     page ss = admin_login
     ∧ login_button (on_admin_login r) = true
     ∧ username (on_admin_login r) = "admin"
     ∧ password (on_admin_login r) = "admin123").
Proof.
  intros Hno.
  destruct (init_session_state_keeps db ss now) as (Hpage & Hadmin & _).
  cbn zeta in *.
  destruct (main_outside_panel r db ss now) as [(_ & Hyes & _)|(Hs & _ & Hst & Hv)].
  { congruence. }
  split_and!; try done.
  unfold main. rewrite Hpage. rewrite Hno in Hadmin.
  set (ss0 := init_session_state db ss now) in *.
  destruct (page ss).
  - unfold show_home_page. repeat case_match; simpl; congruence.
  - unfold show_signup_page. repeat case_match; simpl; congruence.
  - unfold show_voting_page. repeat case_match; simpl; congruence.
  - unfold show_admin_login. repeat case_match; simpl; try congruence.
    intros _. split; [done|].
    match goal with H : _ && _ = true |- _ =>
      apply andb_true_iff in H as [Hu Hp] end.
    by apply bool_decide_eq_true in Hu, Hp.
  - unfold show_admin_panel. rewrite Hadmin. simpl. congruence.
Qed.

(** A visitor on the panel page is sent to the login page; the right
    name and password let an administrator in. *)
Lemma only_admin_changes_schedule_witness :
  let intruder := set_page admin_panel initial_session in
  let r := panel_request Clear_schedule in
  voting_settings (main r first_election intruder 120).1.2
    = voting_settings first_election
  ∧ votes first_election `prefix_of` votes (main r first_election intruder 120).1.2.
Proof.
  cbn zeta.
  destruct (only_admin_changes_schedule (panel_request Clear_schedule)
              first_election (set_page admin_panel initial_session) 120 eq_refl)
    as (Hs & _ & Hv & _).
  by split.
Defined.

(** ** Invariants of the sessions *)

Section session_invariants.
Implicit Types (db : database) (ss : session_state) (now : Z) (r : request).

Lemma serve_session sid r now sv :
  sessions (serve sid r now sv)
  = <[sid := (main r (store sv) (default initial_session (sessions sv !! sid)) now).2]>
      (sessions sv).
Proof. unfold serve. by destruct (main _ _ _ _) as [[? ?] ?]. Qed.

(** A property of sessions that the initial session has and every run
    keeps holds of every session of the server, for ever. *)
Lemma serve_all_sessions (P : session_state → Prop) :
  P initial_session →
  (∀ r db ss now, P ss → P (main r db ss now).2) →
  ∀ rs sv,
    (∀ sid ss, sessions sv !! sid = Some ss → P ss) →
    ∀ sid ss, sessions (serve_all rs sv) !! sid = Some ss → P ss.
Proof.
  intros Hinit Hstep rs.
  induction rs as [|[[sid' r] now] rs IH]; intros sv Hall; [done|].
  simpl. apply IH. intros sid ss. rewrite serve_session.
  destruct (decide (sid' = sid)) as [->|Hne].
  - rewrite lookup_insert_eq. intros [= <-]. apply Hstep.
    destruct (sessions sv !! sid) eqn:E; simpl; eauto.
  - rewrite lookup_insert_ne by done. apply Hall.
Qed.

Lemma main_session_ok r db ss now :
  session_ok ss →
  (main r db ss now).1.1 ≠ Crashed ∧ session_ok (main r db ss now).2.
Proof.
  intros Hok.
  destruct (init_session_state_keeps db ss now) as (_ & _ & Hlog & Hcur & _).
  cbn zeta in *. unfold main.
  set (ss0 := init_session_state db ss now) in *.
  assert (Hok0 : session_ok ss0) by (unfold session_ok; by rewrite Hlog, Hcur).
  clearbody ss0. clear Hok Hlog Hcur. unfold session_ok in *.
  destruct (page ss0).
  - unfold show_home_page. repeat case_match; simpl; done.
  - unfold show_signup_page. repeat case_match; simpl; eauto; done.
  - unfold show_voting_page.
    repeat case_match; simplify_eq; simpl in *; split; eauto; try done.
    all: exfalso; destruct (student_logged_in ss0); [|done];
      by destruct Hok0 as [? ?].
  - unfold show_admin_login. repeat case_match; simpl; done.
  - unfold show_admin_panel. repeat case_match; simpl; done.
Qed.

Lemma main_declaration_consistent r db ss now :
  declaration_consistent ss → declaration_consistent (main r db ss now).2.
Proof.
  intros Hc%(init_session_state_consistent db ss now). unfold main.
  set (ss0 := init_session_state db ss now) in *. clearbody ss0.
  unfold declaration_consistent in *.
  destruct (page ss0).
  - unfold show_home_page. repeat case_match; simpl; done.
  - unfold show_signup_page. repeat case_match; simpl; done.
  - unfold show_voting_page. repeat case_match; simpl; done.
  - unfold show_admin_login. repeat case_match; simpl; done.
  - unfold show_admin_panel.
    repeat case_match; simplify_eq; simpl; try done.
    all: try (split_and!; [done..|]; split; [eauto|done]).
    all: try (split_and!; [done..|]; split; [done|by intros [? ?]]).
    all: destruct Hc as (Hm & Ha & Hw); split_and!; try done.
Qed.

End session_invariants.

(** No run of the script ends in an uncaught exception on the voting
    page: a session that is logged in to vote always names its student.
    This holds of the initial session, is kept by every run, and so holds
    of every session of the server. *)
Theorem session_never_crashes :
  (∀ r db ss now,
     session_ok ss →
     (main r db ss now).1.1 ≠ Crashed ∧ session_ok (main r db ss now).2)
  ∧ (∀ rs sv,
       (∀ sid ss, sessions sv !! sid = Some ss → session_ok ss) →
       ∀ sid ss r now,
         sessions (serve_all rs sv) !! sid = Some ss →
         (main r (store (serve_all rs sv)) ss now).1.1 ≠ Crashed).
Proof.
  split.
  - intros. by apply main_session_ok.
  - intros rs sv Hall sid ss r now Hss.
    apply main_session_ok.
    revert sid ss Hss. apply (serve_all_sessions session_ok); [|intros|done].
    + by intros [=].
    + by apply main_session_ok.
Qed.

Lemma session_never_crashes_witness :
  (main (vote_request (press_vote true true)) first_election (voter_session "S1") 150).1.1
  ≠ Crashed.
Proof.
  destruct session_never_crashes as [Hrun _].
  apply Hrun. intros _. by eexists.
Defined.

(** The flags of the declaration stay consistent through every run, and on
    a consistent session the marker decides nothing: the automatic
    declaration fires exactly when automatic declaration is on, the window
    has ended, no winner stands declared and at least one vote is cast. *)
Theorem declaration_marker_redundant (db : database) (ss : session_state) (now : Z) :
  declaration_consistent ss →
  (∀ r db', declaration_consistent (main r db' ss now).2)
  ∧ ((auto_declare_winner_if_time_ended db ss now).1 = true
     ↔ (∃ s, get_voting_settings db = Some s ∧ auto_declare_winner s = true)
       ∧ status (get_voting_time_status db now) = ended
       ∧ winner_declared ss = false
       ∧ votes db ≠ []).
Proof.
  intros Hc. split; [intros; by apply main_declaration_consistent|].
  split.
  - destruct (auto_declare_winner_if_time_ended db ss now) as [fired ss'] eqn:E.
    simpl. intros ->.
    by apply auto_declare_fires in E as (? & ? & ? & _ & ? & _).
  - intros ((s & Hs & Ha) & Hst & Hw & Hv).
    assert (auto_declaration_processed ss = false) as Hp.
    { destruct Hc as (Hm & _). destruct (auto_declaration_processed ss); [|done].
      rewrite Hm in Hw; done. }
    unfold auto_declare_winner_if_time_ended.
    rewrite Hs, Ha, Hw, Hp, sum_values_get_vote_results. simpl.
    rewrite bool_decide_eq_true_2 by done. simpl.
    by destruct (votes db).
Qed.

Lemma declaration_marker_redundant_witness :
  let db := (cast_vote "s1" "Messi" first_election 150).2 in
  (auto_declare_winner_if_time_ended db initial_session 300).1 = true.
Proof.
  cbn zeta.
  apply (declaration_marker_redundant
           (cast_vote "s1" "Messi" first_election 150).2 initial_session 300).
  - unfold declaration_consistent. simpl. split_and!; [done..|].
    split; [done|by intros [? ?]].
  - split_and!; [by eexists|done..].
Defined.

(** ** Invariants of the store *)

Section store_invariants.
Implicit Types (db : database) (ss : session_state) (now : Z) (r : request).

(** What the panel can do to the two tables: nothing, empty the votes, or
    empty both. *)
Lemma show_admin_panel_tables b db ss now :
  let db' := (show_admin_panel b db ss now).1.2 in
  foreign_keys db' = foreign_keys db
  ∧ ((students db' = students db ∧ votes db' = votes db)
     ∨ (students db' = students db ∧ votes db' = [])
     ∨ (students db' = ∅ ∧ votes db' = [])).
Proof.
  cbn zeta. unfold show_admin_panel.
  destruct (admin_logged_in ss); simpl; [|auto].
  destruct b; simpl; repeat case_match; simpl; simplify_eq; auto.
Qed.

Lemma schedule_ordered_ext db db' :
  voting_settings db' = voting_settings db →
  schedule_ordered db → schedule_ordered db'.
Proof. unfold schedule_ordered. by intros ->. Qed.

Lemma schedule_ordered_times db (f : settings → settings) :
  (∀ x, start_time (f x) = start_time x ∧ end_time (f x) = end_time x) →
  schedule_ordered db →
  schedule_ordered (with_voting_settings (f <$> voting_settings db) db).
Proof.
  intros Hf Hord sch a z. simpl.
  destruct (voting_settings db) as [s0|] eqn:E; [|done].
  simpl. intros [= <-]. destruct (Hf s0) as [-> ->]. by apply Hord.
Qed.

Lemma show_admin_panel_schedule b db ss now :
  button_drawn b → schedule_ordered db →
  schedule_ordered (show_admin_panel b db ss now).1.2.
Proof.
  intros Hb Hord. unfold show_admin_panel.
  destruct (admin_logged_in ss); simpl; [|done].
  destruct b as [| | |w| | |st fi au| | |m| |]; simpl in *;
    try (by repeat case_match; simpl; apply (schedule_ordered_ext db)).
  - destruct (Z.leb_spec fi st); [done|].
    destruct (st <? now)%Z; [done|]. simpl.
    intros sch a z [= <-]; simpl. intros [= <-] [= <-]. done.
  - intros sch a z [= <-]; simpl. by intros _ [=].
  - by apply schedule_ordered_times.
  - intros sch a z [= <-]; simpl. intros [= <-] [= <-].
    unfold preset_minutes, minute in *.
    rewrite !elem_of_cons, elem_of_nil in Hb. lia.
  - destruct (get_voting_settings db); [|done]. simpl. by intros sch a z [=].
  - destruct (get_voting_settings db); [|done]. simpl.
    by apply schedule_ordered_times.
Qed.

Lemma main_schedule_ordered r db ss now :
  button_drawn (on_admin_panel r) → schedule_ordered db →
  schedule_ordered (main r db ss now).1.2.
Proof.
  intros Hb Hord.
  destruct (main_outside_panel r db ss now) as [(_ & _ & ->)|(Hs & _)].
  - by apply show_admin_panel_schedule.
  - unfold schedule_ordered. by rewrite Hs.
Qed.

Lemma main_votes_reference_students r db ss now :
  foreign_keys db = true → votes_reference_students db →
  foreign_keys (main r db ss now).1.2 = true
  ∧ votes_reference_students (main r db ss now).1.2.
Proof.
  intros Hfk Href. unfold main.
  set (ss0 := init_session_state db ss now). destruct (page ss0).
  - by rewrite show_home_page_store.
  - destruct (show_signup_page_store (on_signup r) db ss0 now)
      as [->|(rn & nm & Hfresh & ->)]; [done|].
    split; [done|]. intros v Hv. simpl in *.
    destruct (decide (register_number v = normalize rn)) as [->|Hne].
    + rewrite lookup_insert_eq. eauto.
    + rewrite lookup_insert_ne by done. by apply Href.
  - destruct (show_voting_page_vote (on_vote r) db ss0 now)
      as [->|(student & c & _ & _ & Hcast)]; [done|].
    pose proof Hcast as (Hv & Hst & _ & Hfk')%cast_vote_accepted.
    split; [congruence|]. intros v. rewrite Hv, Hst.
    intros [Hin| ->%list_elem_of_singleton]%elem_of_app; [by apply Href|].
    simpl. rewrite cast_vote_spec, Hfk in Hcast. simpl in Hcast.
    destruct (is_student_registered student db) eqn:Hreg; [|done].
    by apply is_student_registered_spec.
  - by rewrite show_admin_login_store.
  - destruct (show_admin_panel_tables (on_admin_panel r) db ss0 now)
      as (Hfk' & [[Hs Hv]|[[Hs Hv]|[Hs Hv]]]); cbn zeta in *.
    all: split; [congruence|]; unfold votes_reference_students; rewrite Hs, Hv.
    + done.
    + by intros v ?%elem_of_nil.
    + by intros v ?%elem_of_nil.
Qed.

Lemma main_two_candidates r db ss now :
  two_candidates db → two_candidates (main r db ss now).1.2.
Proof.
  intros Htwo. unfold main.
  set (ss0 := init_session_state db ss now). destruct (page ss0).
  - by rewrite show_home_page_store.
  - destruct (show_signup_page_store (on_signup r) db ss0 now)
      as [->|(rn & nm & _ & ->)]; done.
  - destruct (show_voting_page_vote (on_vote r) db ss0 now)
      as [->|(student & c & _ & Hc & Hcast)]; [done|].
    apply cast_vote_accepted in Hcast as (Hv & _).
    intros v. rewrite Hv.
    intros [Hin| ->%list_elem_of_singleton]%elem_of_app; [by apply Htwo|done].
  - by rewrite show_admin_login_store.
  - destruct (show_admin_panel_store (on_admin_panel r) db ss0 now) as [_ [Hv|Hv]];
      unfold two_candidates; rewrite Hv; [done|].
    by intros v ?%elem_of_nil.
Qed.

Lemma two_candidates_count (vs : list vote) :
  (∀ v, v ∈ vs → candidate v = "Messi" ∨ candidate v = "Ronaldo") →
  count_votes "Messi" vs + count_votes "Ronaldo" vs = length vs.
Proof.
  induction vs as [|v vs IH]; intros Htwo; [done|].
  rewrite !count_votes_cons. simpl.
  rewrite <- IH by (intros; apply Htwo; by right).
  destruct (Htwo v) as [Hc|Hc]; [by left|..]; rewrite Hc; simpl; lia.
Qed.

End store_invariants.

(** Whatever requests are served, with the buttons the panel draws, a
    schedule that has both bounds starts before it ends: the form refuses
    any other, and the presets end 15, 30, 45 or 60 minutes after they
    start. *)
Theorem schedule_ordered_kept (rs : list (nat * request * Z)) (sv : server) :
  Forall (λ x, button_drawn (on_admin_panel x.1.2)) rs →
  schedule_ordered (store sv) →
  schedule_ordered (store (serve_all rs sv)).
Proof.
  revert sv. induction rs as [|[[sid r] now] rs IH]; intros sv Hrs Hord; [done|].
  apply Forall_cons in Hrs as [Hr Hrs]. simpl in *.
  apply IH; [done|]. rewrite serve_store. by apply main_schedule_ordered.
Qed.

(** A preset of 15 minutes pressed at time 120 in [first_election]. *)
Lemma schedule_ordered_kept_witness :
  let sv := serve_all [(0, panel_request (Quick_preset 15), 120%Z)]
                      (Server first_election first_sessions) in
  schedule_ordered (store sv)
  ∧ (end_time <$> voting_settings (store sv)) = Some (Some (120 + 15 * minute)%Z).
Proof.
  cbn zeta. split; [|by vm_compute].
  apply schedule_ordered_kept.
  - apply Forall_cons. split; [|apply Forall_nil_2].
    simpl. unfold preset_minutes. by left.
  - intros s a z [= <-]; simpl. by intros [= <-] [= <-].
Defined.

(** On a connection that enforces foreign keys, every vote in the store is
    the vote of a registered student, whatever requests are served. *)
Theorem votes_reference_students_kept (rs : list (nat * request * Z)) (sv : server) :
  foreign_keys (store sv) = true →
  votes_reference_students (store sv) →
  foreign_keys (store (serve_all rs sv)) = true
  ∧ votes_reference_students (store (serve_all rs sv)).
Proof.
  intros Hfk Href.
  apply (serve_all_invariant
           (λ db, foreign_keys db = true ∧ votes_reference_students db)); [|done].
  intros r db ss now [? ?]. by apply main_votes_reference_students.
Qed.

(** Without the pragma the same requests leave the vote of a student who
    is no longer registered: "S1" is on the voting page, the administrator
    deletes all students, "S1" votes. *)
Lemma vote_of_deleted_student :
  let requests :=
    [ (0, panel_request Delete_all_students, 120%Z);
      (1, vote_request (press_vote true false), 150%Z) ] in
  let sv := serve_all requests (Server first_election first_sessions) in
  foreign_keys (store sv) = false
  ∧ get_student_count (store sv) = 0
  ∧ (register_number <$> votes (store sv)) = ["S1"]
  ∧ ¬ votes_reference_students (store sv).
Proof.
  cbn zeta. split; [by vm_compute|]. split; [by vm_compute|].
  split; [by vm_compute|].
  intros Href. destruct (Href (Vote 1 "S1" "Messi" 150)) as [st Hst].
  - by vm_compute; left.
  - by vm_compute in Hst.
Qed.

(** The same requests on a connection that enforces foreign keys. *)
Lemma votes_reference_students_kept_witness :
  let requests :=
    [ (0, panel_request Delete_all_students, 120%Z);
      (1, vote_request (press_vote true false), 150%Z) ] in
  let db0 :=
    (set_voting_time (Some 100%Z) (Some 200%Z) true
       (register_student "s1" "al" (empty_database true) 10).2 50).2 in
  let sv := serve_all requests (Server db0 first_sessions) in
  votes_reference_students (store sv) ∧ votes (store sv) = [].
Proof.
  cbn zeta. split; [|by vm_compute].
  apply votes_reference_students_kept; [by vm_compute|].
  by intros v ?%elem_of_nil.
Defined.

(** The voting page casts votes for Messi and Ronaldo only; so, starting
    from a store without other votes, the tally always has exactly the two
    entries, and the two counts add up to the total that the pages divide
    by for their percentages. *)
Theorem two_candidate_tally (rs : list (nat * request * Z)) (sv : server) :
  two_candidates (store sv) →
  let db := store (serve_all rs sv) in
  two_candidates db
  ∧ (∀ c, is_Some (get_vote_results db !! c) ↔ c = "Messi" ∨ c = "Ronaldo")
  ∧ votes_for "Messi" (get_vote_results db) + votes_for "Ronaldo" (get_vote_results db)
    = sum_values (get_vote_results db)
  ∧ sum_values (get_vote_results db) = get_total_votes db.
Proof.
  intros Htwo. cbn zeta.
  assert (Htwo' : two_candidates (store (serve_all rs sv))).
  { apply (serve_all_invariant two_candidates); [|done].
    intros. by apply main_two_candidates. }
  split; [done|]. split; [|split].
  - intros c. rewrite get_vote_results_keys. split; [|tauto].
    intros [?|[?|(v & -> & Hv)%list_elem_of_fmap]]; auto.
  - rewrite !votes_for_both by (by left + by right).
    rewrite sum_values_get_vote_results. by apply two_candidates_count.
  - apply sum_values_get_vote_results.
Qed.

Lemma two_candidate_tally_witness :
  let requests :=
    [ (1, vote_request (press_vote true false), 150%Z);
      (2, vote_request (press_vote false true), 160%Z) ] in
  let db := store (serve_all requests (Server first_election first_sessions)) in
  votes_for "Messi" (get_vote_results db) + votes_for "Ronaldo" (get_vote_results db)
  = get_total_votes db
  ∧ get_total_votes db = 2.
Proof.
  cbn zeta. split; [|by vm_compute].
  destruct (two_candidate_tally
              [ (1, vote_request (press_vote true false), 150%Z);
                (2, vote_request (press_vote false true), 160%Z) ]
              (Server first_election first_sessions)) as (_ & _ & Hsum & Htot).
  - by intros v ?%elem_of_nil.
  - by rewrite Hsum.
Defined.

(** ** Casting a vote from the page *)

Lemma can_vote_status (db : database) (now : Z) :
  can_vote (get_voting_time_status db now) = true →
  status (get_voting_time_status db now) = active
  ∨ status (get_voting_time_status db now) = enabled.
Proof.
  unfold get_voting_time_status.
  repeat case_match; simpl; try done; auto.
Qed.

(** A student who is logged in on the voting page and has not voted, while
    voting is allowed, presses a vote button.  If the student is registered
    (or the connection does not enforce foreign keys) exactly one vote is
    recorded, for the normalized register number, for Messi when "Vote for
    Messi" is pressed and for Ronaldo otherwise, and the student has voted
    from then on.  If the registration is gone and foreign keys are
    enforced, the page answers "Voting failed. Please try again." and the
    store is unchanged. *)
Theorem logged_in_student_can_vote (w : vote_widgets) (db : database)
    (ss : session_state) (now : Z) (student : string) :
  vote_back_to_home w = false →
  student_logged_in ss = true →
  current_student ss = Some student →
  can_vote (get_voting_time_status db now) = true →
  has_student_voted student db = false →
  messi_vote w = true ∨ ronaldo_vote w = true →
  (is_student_registered student db = true ∨ foreign_keys db = false →
     let c := if messi_vote w then "Messi" else "Ronaldo" in
     ∃ db',
       show_voting_page w db ss now = (Rerun, db', ss)
       ∧ votes db' = (votes db ++ [Vote (S (votes_seq db)) (normalize student) c now])%list
       ∧ students db' = students db
       ∧ has_student_voted student db' = true)
  ∧ (is_student_registered student db = false → foreign_keys db = true →
     show_voting_page w db ss now = (Error voting_failed, db, ss)).
Proof.
  intros Hback Hlog Hcur Hcan Hnot Hpress.
  assert (Hpage : show_voting_page w db ss now =
    let ronaldo (shown : outcome) (db : database) : page_result :=
      if ronaldo_vote w then
        match cast_vote student "Ronaldo" db now with
        | (true, db') => (Rerun, db', ss)
        | (false, db') => (Error voting_failed, db', ss)
        end
      else (shown, db, ss) in
    if messi_vote w then
      match cast_vote student "Messi" db now with
      | (true, db') => (Rerun, db', ss)
      | (false, db') => ronaldo (Error voting_failed) db'
      end
    else ronaldo Returned db).
  { unfold show_voting_page. rewrite Hback, Hlog, Hcur, Hnot, Hcan. simpl.
    by destruct (can_vote_status db now Hcan) as [Hst|Hst]; rewrite Hst. }
  rewrite Hpage. cbn zeta. rewrite !cast_vote_spec. split.
  - intros Hacc.
    assert (foreign_keys db && negb (is_student_registered student db) = false) as ->.
    { destruct Hacc as [Hr|Hf]; [rewrite Hr; apply andb_false_r|by rewrite Hf]. }
    assert (∀ c,
      has_student_voted student
        (with_votes (votes db ++ [Vote (S (votes_seq db)) (normalize student) c now])
                    (S (votes_seq db)) db) = true) as Hvoted.
    { intros c. apply has_student_voted_spec. simpl. rewrite fmap_app.
      apply elem_of_app. right. by left. }
    destruct (messi_vote w); [by eexists|].
    destruct Hpress as [|Hr]; [done|]. rewrite Hr. by eexists.
  - intros Hreg Hfk. rewrite Hfk, Hreg. simpl.
    destruct (messi_vote w), (ronaldo_vote w);
      rewrite ?cast_vote_spec, ?Hfk, ?Hreg; try done.
    by destruct Hpress.
Qed.

(** "S1" votes for Ronaldo in [first_election] at 150. *)
Lemma logged_in_student_can_vote_witness :
  ∃ db',
    show_voting_page (press_vote false true) first_election (voter_session "S1") 150
      = (Rerun, db', voter_session "S1")
    ∧ votes db' = [Vote 1 "S1" "Ronaldo" 150].
Proof.
  destruct (logged_in_student_can_vote (press_vote false true) first_election
              (voter_session "S1") 150 "S1"
              eq_refl eq_refl eq_refl eq_refl eq_refl (or_intror eq_refl))
    as [Hvote _].
  destruct Hvote as (db' & Hrun & Hv & _); [by left|].
  exists db'. split; [exact Hrun|]. exact Hv.
Defined.

(** ** The time remaining, in words *)

Section time_remaining.
Local Open Scope Z_scope.

(** For a time remaining that is not negative, [format_time_remaining]
    splits the whole seconds into days, hours below 24, minutes below 60
    and seconds below 60, and prints the leading units: days, hours and
    minutes from one day on; hours and minutes from one hour on; minutes
    and seconds from one minute on; seconds alone below a minute.  The
    seconds are dropped, never rounded up, from one hour on. *)
Theorem format_time_remaining_parts (time_delta : Z) :
  0 ≤ time_delta →
  ∃ d h m s,
    time_delta / 1000000 = d * 86400 + h * 3600 + m * 60 + s
    ∧ 0 ≤ d ∧ 0 ≤ h < 24 ∧ 0 ≤ m < 60 ∧ 0 ≤ s < 60
    ∧ format_time_remaining time_delta =
        if 0 <? d then
          decimal d +:+ " days, " +:+ decimal h +:+ " hours, "
            +:+ decimal m +:+ " minutes"
        else if 0 <? h then decimal h +:+ " hours, " +:+ decimal m +:+ " minutes"
        else if 0 <? m then decimal m +:+ " minutes, " +:+ decimal s +:+ " seconds"
        else decimal s +:+ " seconds".
Proof.
  intros Hpos.
  set (secs := Timedelta.seconds time_delta).
  exists (Timedelta.days time_delta), (secs / 3600), ((secs mod 3600) / 60), (secs mod 60).
  assert (Hsecs : 0 ≤ secs < 86400).
  { unfold secs, Timedelta.seconds.
    pose proof (Z.mod_pos_bound time_delta 86400000000 eq_refl).
    split; [apply Z.div_pos; lia|apply Z.div_lt_upper_bound; lia]. }
  assert (Htotal : time_delta / 1000000 = Timedelta.days time_delta * 86400 + secs).
  { unfold secs, Timedelta.seconds, Timedelta.days.
    rewrite (Z.div_mod time_delta 86400000000) at 1 by lia.
    replace (86400000000 * (time_delta / 86400000000))
      with (time_delta / 86400000000 * 86400 * 1000000) by lia.
    rewrite Z.div_add_l by lia. done. }
  assert (Hdays : 0 ≤ Timedelta.days time_delta)
    by (unfold Timedelta.days; apply Z.div_pos; lia).
  pose proof (Z.div_mod secs 3600 ltac:(lia)) as Hh.
  pose proof (Z.mod_pos_bound secs 3600 eq_refl) as Hhr.
  pose proof (Z.div_mod (secs mod 3600) 60 ltac:(lia)) as Hm.
  pose proof (Z.mod_pos_bound (secs mod 3600) 60 eq_refl) as Hmr.
  assert (Hs : (secs mod 3600) mod 60 = secs mod 60).
  { rewrite <- (Z.mod_mod_divide secs 3600 60) by (exists 60; lia). done. }
  assert (Hhb : 0 ≤ secs / 3600 < 24).
  { split; [apply Z.div_pos; lia|apply Z.div_lt_upper_bound; lia]. }
  assert (Hmb : 0 ≤ secs mod 3600 / 60 < 60).
  { split; [apply Z.div_pos; lia|apply Z.div_lt_upper_bound; lia]. }
  split_and!; try lia.
  unfold format_time_remaining. fold secs.
  destruct (Z.ltb_spec 0 (Timedelta.days time_delta)); [done|].
  destruct (Z.leb_spec 3600 secs) as [Hge|Hlt].
  { destruct (Z.ltb_spec 0 (secs / 3600)) as [|Hz]; [done|].
    assert (secs / 3600 = 0) as Hq by lia. rewrite Hq in Hh. lia. }
  assert (secs / 3600 = 0) as Hq by (apply Z.div_small; lia).
  rewrite Hq. simpl (0 <? 0).
  assert (secs mod 3600 = secs) as Hr by (apply Z.mod_small; lia).
  rewrite Hr.
  destruct (Z.leb_spec 60 secs) as [Hge|Hlt'].
  { destruct (Z.ltb_spec 0 (secs / 60)) as [|Hz]; [done|].
    pose proof (Z.div_mod secs 60 ltac:(lia)).
    pose proof (Z.mod_pos_bound secs 60 eq_refl). lia. }
  assert (secs / 60 = 0) as Hq' by (apply Z.div_small; lia).
  rewrite Hq'. simpl (0 <? 0).
  by rewrite (Z.mod_small secs 60) by lia.
Qed.

(** One day, two hours, three minutes and four seconds; fifty-nine
    seconds and a half. *)
Lemma format_time_remaining_parts_witness :
  format_time_remaining 93784000000 = "1 days, 2 hours, 3 minutes"
  ∧ format_time_remaining 7384000000 = "2 hours, 3 minutes"
  ∧ format_time_remaining 184000000 = "3 minutes, 4 seconds"
  ∧ format_time_remaining 59500000 = "59 seconds"
  ∧ ∃ d h m s, 59500000 / 1000000 = d * 86400 + h * 3600 + m * 60 + s
               ∧ 0 ≤ s < 60.
Proof.
  split_and!; [by vm_compute..|].
  destruct (format_time_remaining_parts 59500000) as (d & h & m & s & H & _ & _ & _ & Hs & _);
    [lia|].
  by exists d, h, m, s.
Defined.

End time_remaining.

(** ** After the sign-up form *)

(** A submitted form that ends in a rerun has registered the student: the
    session is logged in under the normalized register number, which is
    now registered, and the count went up by one.  The page then shows the
    success screen instead of the form: its later runs register nobody,
    and "Go to Voting Page" leads to the voting page. *)
Theorem signup_logs_student_in (w : signup_widgets) (db : database)
    (ss : session_state) (now : Z) :
  form_submitted w ss →
  (show_signup_page w db ss now).1.1 = Rerun →
  let rn := normalize (signup_register_number w) in
  let db1 := (show_signup_page w db ss now).1.2 in
  let ss1 := (show_signup_page w db ss now).2 in
  student_logged_in ss1 = true
  ∧ current_student ss1 = Some rn
  ∧ registration_success ss1 = true
  ∧ is_student_registered rn db = false
  ∧ is_student_registered rn db1 = true
  ∧ get_student_count db1 = S (get_student_count db)
  ∧ (∀ w' db' now',
       signup_back_to_home w' = false →
       show_signup_page w' db' ss1 now' =
         if go_to_voting_page w' then
           (Rerun, db', set_registration_success false (set_page vote_page ss1))
         else (Returned, db', ss1)).
Proof.
  intros Hsub. rewrite (show_signup_page_submitted w db ss now Hsub). cbn zeta.
  set (rn := normalize (signup_register_number w)).
  destruct (_ || _); [done|].
  destruct (_ <? 3)%nat; [done|].
  destruct (_ <? 2)%nat; [done|].
  destruct (students db !! rn) eqn:Hfresh; [done|]. simpl. intros _.
  split_and!; try done.
  - apply not_true_is_false. rewrite is_student_registered_spec.
    unfold rn. rewrite normalize_idemp. fold rn. rewrite Hfresh. by intros [? ?].
  - apply is_student_registered_spec. simpl.
    unfold rn. rewrite normalize_idemp. fold rn. rewrite lookup_insert_eq. eauto.
  - unfold get_student_count. simpl. by apply map_size_insert_None.
  - intros w' db' now' Hback. unfold show_signup_page. rewrite Hback. simpl. done.
Qed.

Lemma signup_logs_student_in_witness :
  let w := SignupWidgets false false " s04 " "dee" true in
  let ss := set_page signup initial_session in
  current_student (show_signup_page w first_election ss 120).2 = Some "S04"
  ∧ get_student_count (show_signup_page w first_election ss 120).1.2 = 4.
Proof.
  cbn zeta.
  destruct (signup_logs_student_in (SignupWidgets false false " s04 " "dee" true)
              first_election (set_page signup initial_session) 120)
    as (_ & Hcur & _ & _ & _ & Hcount & _).
  { repeat split. }
  { by vm_compute. }
  split; [exact Hcur|exact Hcount].
Defined.

(** ** Declaring by hand *)

(** On the panel of a logged-in administrator, once a vote is cast, any of
    the three declarations can be made at any time, whatever the tally and
    the window say; it is recorded as not automatic and, while it stands,
    the automatic declaration never fires.  "Reset Winner Declaration"
    clears it, marker included.  With no vote cast the buttons are not
    drawn and nothing changes. *)
Theorem manual_declaration (winner : string) (db : database) (ss : session_state)
    (now : Z) :
  admin_logged_in ss = true →
  (votes db ≠ [] →
     let ss' := set_declaration true (Some winner) false ss in
     show_admin_panel (Declare_winner winner) db ss now = (Rerun, db, ss')
     ∧ declared_winner ss' = Some winner
     ∧ auto_declared ss' = false
     ∧ (∀ db' t, auto_declare_winner_if_time_ended db' ss' t = (false, ss'))
     ∧ show_admin_panel Reset_winner_declaration db ss' now
       = (Rerun, db, clear_declaration ss')
     ∧ winner_declared (clear_declaration ss') = false
     ∧ auto_declaration_processed (clear_declaration ss') = false)
  ∧ (votes db = [] →
     show_admin_panel (Declare_winner winner) db ss now = (Returned, db, ss)
     ∧ show_admin_panel Reset_winner_declaration db ss now = (Returned, db, ss)).
Proof.
  intros Hadmin. unfold show_admin_panel. simpl. rewrite Hadmin. cbn [negb].
  rewrite sum_values_get_vote_results. split.
  - intros Hv. destruct (votes db) eqn:E; [done|]. simpl.
    split_and!; try done.
    intros db' t. apply auto_declare_blocked. by right.
  - by intros ->.
Qed.

(** The administrator declares Ronaldo while Messi leads one to nothing and
    the window is still open. *)
Lemma manual_declaration_witness :
  let db := (cast_vote "s1" "Messi" first_election 150).2 in
  show_admin_panel (Declare_winner "Ronaldo") db admin_session 160
    = (Rerun, db, set_declaration true (Some "Ronaldo") false admin_session)
  ∧ current_leader db = Some "Messi"
  ∧ show_admin_panel (Declare_winner "Tie") first_election admin_session 160
    = (Returned, first_election, admin_session).
Proof.
  cbn zeta. split; [|split; [by vm_compute|]].
  - by apply (manual_declaration "Ronaldo"
                (cast_vote "s1" "Messi" first_election 150).2 admin_session 160 eq_refl).
  - by apply (manual_declaration "Tie" first_election admin_session 160 eq_refl).
Defined.

(** ** Presets and the switch of the automatic declaration *)

Section presets.
Local Open Scope Z_scope.

(** A quick preset pressed by a logged-in administrator opens voting at
    once, for the 15, 30, 45 or 60 minutes of the button and no longer,
    with automatic declaration on and the marker cleared. *)
Theorem quick_preset_window (minutes : Z) (db : database) (ss : session_state)
    (now : Z) :
  admin_logged_in ss = true →
  minutes ∈ preset_minutes →
  ∃ db',
    show_admin_panel (Quick_preset minutes) db ss now
      = (Rerun, db', set_auto_declaration_processed false ss)
    ∧ (∀ t, can_vote (get_voting_time_status db' t) = true
            ↔ now ≤ t ≤ now + minutes * 60 * 1000000)
    ∧ status (get_voting_time_status db' now) = active
    ∧ time_remaining (get_voting_time_status db' now) = Some (minutes * 60 * 1000000)
    ∧ (auto_declare_winner <$> get_voting_settings db') = Some true
    ∧ students db' = students db ∧ votes db' = votes db.
Proof.
  intros Hadmin Hm. unfold show_admin_panel. rewrite Hadmin. cbn [negb].
  unfold preset_minutes in Hm. rewrite !elem_of_cons, elem_of_nil in Hm.
  exists (set_voting_time (Some now) (Some (now + minutes * minute)) true db now).2.
  split; [done|].
  split_and!; try done.
  - intros t. rewrite status_of_set_voting_time, Z.gtb_ltb. unfold minute.
    destruct (Z.ltb_spec t now), (Z.ltb_spec (now + minutes * 60000000) t); simpl;
      split; intros; try done; lia.
  - rewrite status_of_set_voting_time, Z.gtb_ltb. unfold minute.
    destruct (Z.ltb_spec now now), (Z.ltb_spec (now + minutes * 60000000) now);
      simpl; try done; lia.
  - rewrite status_of_set_voting_time, Z.gtb_ltb. unfold minute.
    destruct (Z.ltb_spec now now), (Z.ltb_spec (now + minutes * 60000000) now);
      simpl; try lia. f_equal. lia.
Qed.

Lemma quick_preset_window_witness :
  ∃ db',
    show_admin_panel (Quick_preset 30) first_election admin_session 1000
      = (Rerun, db', set_auto_declaration_processed false admin_session)
    ∧ time_remaining (get_voting_time_status db' 1000) = Some 1800000000.
Proof.
  destruct (quick_preset_window 30 first_election admin_session 1000 eq_refl)
    as (db' & Hrun & _ & _ & Hrem & _).
  - unfold preset_minutes. right. by left.
  - exists db'. split; [exact Hrun|exact Hrem].
Defined.

End presets.

(** The switch of the automatic declaration flips the flag of the schedule
    and nothing else; pressed twice it gives the store back, pressed while
    the flag is on it keeps the automatic declaration from firing, and
    without a schedule it does nothing. *)
Theorem toggle_auto_declaration_twice (db : database) (ss : session_state) (now : Z) :
  admin_logged_in ss = true →
  let once := show_admin_panel Toggle_auto_declaration db ss now in
  let twice := show_admin_panel Toggle_auto_declaration once.1.2 ss now in
  twice.1.2 = db
  ∧ once.2 = ss
  ∧ (∀ t, get_voting_time_status once.1.2 t = get_voting_time_status db t)
  ∧ (auto_declare_winner <$> get_voting_settings once.1.2)
    = (negb ∘ auto_declare_winner <$> get_voting_settings db)
  ∧ ((auto_declare_winner <$> get_voting_settings db) = Some true →
     ∀ ss' t, auto_declare_winner_if_time_ended once.1.2 ss' t = (false, ss'))
  ∧ (get_voting_settings db = None → once = (Returned, db, ss)).
Proof.
  intros Hadmin. cbn zeta. unfold show_admin_panel. rewrite Hadmin. cbn [negb].
  unfold get_voting_settings. destruct db as [st vs seq [s|] fk]; simpl.
  - destruct s as [i a z e auto c u]. simpl. rewrite negb_involutive.
    split_and!; try done.
    intros [= ->] ss' t. done.
  - split_and!; done.
Qed.

Lemma toggle_auto_declaration_twice_witness :
  let db := (cast_vote "s1" "Messi" first_election 150).2 in
  auto_declare_winner_if_time_ended
    (show_admin_panel Toggle_auto_declaration db admin_session 160).1.2
    initial_session 300 = (false, initial_session)
  ∧ (auto_declare_winner_if_time_ended db initial_session 300).1 = true.
Proof.
  cbn zeta. split; [|by vm_compute].
  by apply (toggle_auto_declaration_twice
              (cast_vote "s1" "Messi" first_election 150).2 admin_session 160 eq_refl).
Defined.

(** The tally of a store with a vote for a third name. *)
Lemma tally_total_is_vote_count_witness :
  let db := (cast_vote "s2" "Pele" (cast_vote "s1" "Messi" first_election 150).2 160).2 in
  sum_values (get_vote_results db) = 2
  ∧ is_Some (get_vote_results db !! "Pele")
  ∧ get_vote_results db !! "Ronaldo" = Some 0.
Proof.
  cbn zeta.
  destruct (tally_total_is_vote_count
              (cast_vote "s2" "Pele" (cast_vote "s1" "Messi" first_election 150).2 160).2)
    as (Hsum & Hkeys & Hval).
  split; [exact Hsum|]. split.
  - apply Hkeys. right; right. by vm_compute; right; left.
  - destruct (proj2 (Hkeys "Ronaldo")) as [n Hn]; [by right; left|].
    rewrite Hn. f_equal. by rewrite (Hval "Ronaldo" n Hn).
Defined.
